(** * TestRunner: a black-box test harness for compiled programs

    Shallow embedding of [src/TestRunner/TestRunner.py].

    The runner loads a JSON suite, spawns the subject binary once per
    test case, feeds it the case's input, compares the stripped standard
    output with the stripped expected value, tallies the verdicts in
    [self.results] and finally turns the tally into an exit status.

    What the embedding keeps from the source:
    - Python [str] values are sequences of Unicode code points;
    - a test case is whatever [json.load] produced: the source reads it
      with [dict.get] and a default, so the case is a JSON value here too;
    - exceptions (class [Exception]) are explicit results; the [try] of
      [run_single_test] and the [try] of [main] are written out;
    - [self.results], the process table and the console are threaded as
      an explicit state.

    What is left to the environment: the file system, the behaviour of
    the child process (one event per [Popen] call), the textual rendering
    of the timeout value.  Wall-clock readings ([time.time()]) and the
    colour escapes of colorama carry no information used by any decision
    of the program and are left out of the console model. *)

From Stdlib Require Import List Bool Arith NArith ZArith Lia String Ascii.
From Stdlib Require Import DecimalString.
Import ListNotations.

Set Implicit Arguments.
Set Warnings "-register-all".

(** ** Python strings *)

Module PyStr.

(** A code point. *)
Definition char := N.

(** A Python [str]. *)
Definition str := list char.

(** An ASCII literal of the source, as a [str]. *)
Definition py (s : string) : str :=
  List.map N_of_ascii (list_ascii_of_string s).

Fixpoint eqb (a b : str) : bool :=
  match a, b with
  | [], [] => true
  | x :: a', y :: b' => N.eqb x y && eqb a' b'
  | _, _ => false
  end.

(** [str.isspace] on one code point: the white-space table of CPython
    ([_PyUnicode_IsWhitespace]). *)
Definition isspace (c : char) : bool :=
  ((9 <=? c) && (c <=? 13) || (28 <=? c) && (c <=? 32)
   || (c =? 133) || (c =? 160) || (c =? 5760)
   || (8192 <=? c) && (c <=? 8202)
   || (c =? 8232) || (c =? 8233) || (c =? 8239)
   || (c =? 8287) || (c =? 12288))%N.

(** [str.lstrip()] *)
Fixpoint lstrip (s : str) : str :=
  match s with
  | [] => []
  | c :: s' => if isspace c then lstrip s' else s
  end.

(** [str.rstrip()] *)
Definition rstrip (s : str) : str := rev (lstrip (rev s)).

(** [str.strip()]: white space is removed at both ends. *)
Definition strip (s : str) : str := rstrip (lstrip s).

(** [str(i)] for a non-negative [int]. *)
Definition str_of_nat (i : nat) : str :=
  py (NilEmpty.string_of_uint (Nat.to_uint i)).

(** Truth value of a [str]. *)
Definition truthy (s : str) : bool :=
  match s with [] => false | _ :: _ => true end.

End PyStr.

Import PyStr.

(** ** Paths

    [str(Path(p))] on a POSIX system: the slashes that are repeated or
    trailing and the components [.] are dropped; a leading slash is
    kept, two leading slashes are kept as two, three or more as one;
    the empty path is [.]. *)
Module PyPath.

(** [s.split(sep)] for a one-character separator. *)
Fixpoint split_on (sep : char) (s : str) : list str :=
  match s with
  | [] => [[]]
  | c :: s' =>
      if N.eqb c sep then [] :: split_on sep s'
      else match split_on sep s' with
           | part :: parts => (c :: part) :: parts
           | [] => [[c]]
           end
  end.

(** [sep.join(parts)] *)
Fixpoint join (sep : str) (parts : list str) : str :=
  match parts with
  | [] => []
  | part :: rest =>
      match rest with
      | [] => part
      | _ :: _ => part ++ sep ++ join sep rest
      end
  end.

(** The root of a path: empty, one slash, or two slashes. *)
Definition root (p : str) : str :=
  match p with
  | c1 :: p1 =>
      if N.eqb c1 47%N then
        match p1 with
        | c2 :: p2 =>
            if N.eqb c2 47%N then
              match p2 with
              | c3 :: _ => if N.eqb c3 47%N then [47%N] else [47%N; 47%N]
              | [] => [47%N; 47%N]
              end
            else [47%N]
        | [] => [47%N]
        end
      else []
  | [] => []
  end.

(** The components of a path that count. *)
Definition parts (p : str) : list str :=
  List.filter (fun x => negb (eqb x []) && negb (eqb x [46%N]))
              (split_on 47%N p).

(** [str(Path(p))] *)
Definition path_str (p : str) : str :=
  match root p ++ join [47%N] (parts p) with
  | [] => [46%N]
  | c :: r => c :: r
  end.

End PyPath.

(** ** Values produced by [json.load]

    A dictionary is the list of its entries, keys distinct; [lookup]
    finds the entry of a key.  Numbers are kept as integers: the runner
    never computes with a number, and an [int] and a [float] fail in
    the same way wherever it expects a string or a dictionary. *)

Inductive json : Type :=
| JNull
| JBool (b : bool)
| JNum (n : Z)
| JStr (s : str)
| JArr (items : list json)
| JObj (fields : list (str * json)).

(** ** Exceptions and the state-and-exception monad *)

(** The exceptions of class [Exception] that the program meets.  The
    three built-in errors come from operating on a JSON value of the
    wrong shape; [LoadFailure] stands for whatever [open] or
    [json.load] raised. *)
Inductive exn : Type :=
| FileNotFoundError (msg : str)
| LoadFailure (msg : str)
| AttributeError
| KeyError
| TypeError.

Inductive outcome (A : Type) : Type :=
| Ok (a : A)
| Raise (e : exn).

Arguments Ok {A} a.
Arguments Raise {A} e.

(** One [failure_info] dictionary of [run_all_tests]. *)
Record failure_info : Type := mkFailure {
  f_test : json;
  f_input : json;
  f_expected : json;
  f_actual : option str;
  f_error : option str
}.

(** The dictionary [self.results]. *)
Record results_t : Type := mkResults {
  passed : nat;
  failed : nat;
  total : nat;
  failures : list failure_info
}.

(** What the program writes on its console, one constructor per [print]
    call of the source. *)
Inductive out_line : Type :=
| PrRunning (n : nat)
| PrCase (i n : nat) (name : json)
| PrPassed
| PrFailed
| PrDetailsFor (name : json)
| PrDetailsInput (v : json)
| PrDetailsExpected (v : json)
| PrDetailsActual (s : str)
| PrDetailsError (s : str)
| PrBlank
| PrRule
| PrTotal (n : nat)
| PrPassedCount (n : nat)
| PrFailedCount (n : nat)
| PrFailedTests
| PrItem (name : json)
| PrItemInput (v : json)
| PrItemExpected (v : json)
| PrItemActual (s : str)
| PrItemError (s : str)
| PrFatal (e : exn).

(** The mutable world of one run: [self.results], the number of
    [Popen] calls made so far, the children that are still running, and
    the console. *)
Record state : Type := mkState {
  results : results_t;
  spawned : nat;
  running : list nat;
  console : list out_line
}.

Definition M (A : Type) : Type := state -> outcome A * state.

Definition ret {A} (a : A) : M A := fun s => (Ok a, s).

Definition raise {A} (e : exn) : M A := fun s => (Raise e, s).

Definition bind {A B} (m : M A) (k : A -> M B) : M B :=
  fun s =>
    match m s with
    | (Ok a, s') => k a s'
    | (Raise e, s') => (Raise e, s')
    end.

Definition lift {A} (o : outcome A) : M A := fun s => (o, s).

Declare Scope py_scope.
Delimit Scope py_scope with py.
Notation "x <- m ;; k" := (bind m (fun x => k))
  (at level 61, m at next level, right associativity) : py_scope.
Notation "m ;; k" := (bind m (fun _ => k))
  (at level 61, right associativity) : py_scope.
Open Scope py_scope.

(** [print]: the line is added to the console.  A write to the console
    is taken to succeed: the standard output is open and its encoding
    has every character of the text.  A statement that a run goes on
    after printing text that comes from the suite or from the command
    line is made either of a run that is given to have completed or of
    text that is plain ASCII, which every console can write. *)
Definition print (l : out_line) : M unit :=
  fun s => (Ok tt, mkState (results s) (spawned s) (running s) (console s ++ [l])).

Definition get_results : M results_t := fun s => (Ok (results s), s).

Definition set_results (r : results_t) : M unit :=
  fun s => (Ok tt, mkState r (spawned s) (running s) (console s)).

(** ** Operations on JSON values *)

Fixpoint lookup (k : str) (fs : list (str * json)) : option json :=
  match fs with
  | [] => None
  | (k', v) :: fs' => if eqb k k' then Some v else lookup k fs'
  end.

(** [d.get(k, default)]: only a dictionary has the method. *)
Definition dict_get (d : json) (k : str) (default : json) : outcome json :=
  match d with
  | JObj fs =>
      match lookup k fs with
      | Some v => Ok v
      | None => Ok default
      end
  | _ => Raise AttributeError
  end.

(** [v.strip()]: only a string has the method. *)
Definition method_strip (v : json) : outcome str :=
  match v with
  | JStr s => Ok (strip s)
  | _ => Raise AttributeError
  end.

(** [v[k]] for a string key [k]. *)
Definition subscript (v : json) (k : str) : outcome json :=
  match v with
  | JObj fs =>
      match lookup k fs with
      | Some x => Ok x
      | None => Raise KeyError
      end
  | _ => Raise TypeError
  end.

(** [len(v)] *)
Definition py_len (v : json) : outcome nat :=
  match v with
  | JStr s => Ok (List.length s)
  | JArr l => Ok (List.length l)
  | JObj fs => Ok (List.length fs)
  | _ => Raise TypeError
  end.

(** The items that [for ... in v] goes through: the elements of a list,
    the characters of a string, the keys of a dictionary. *)
Definition py_iter (v : json) : outcome (list json) :=
  match v with
  | JStr s => Ok (List.map (fun c => JStr [c]) s)
  | JArr l => Ok l
  | JObj fs => Ok (List.map (fun kv => JStr (fst kv)) fs)
  | _ => Raise TypeError
  end.

(** ** The child process *)

(** What one [Popen] + [communicate] pair can do.
    - [SpawnFails msg]: [Popen] raises (binary not executable, OS error);
    - [Exits out err rc]: the child ran to completion in time;
    - [Overruns]: [communicate] raises [TimeoutExpired], the child is
      still running;
    - [CommFails msg alive]: [communicate] raises another exception;
      [alive] tells whether the child is still running then. *)
Inductive child_event : Type :=
| SpawnFails (msg : str)
| Exits (stdout stderr : str) (returncode : Z)
| Overruns
| CommFails (msg : str) (alive : bool).

Definition next_pid : M nat :=
  fun s => (Ok (spawned s),
            mkState (results s) (S (spawned s)) (running s) (console s)).

Definition proc_started (pid : nat) : M unit :=
  fun s => (Ok tt, mkState (results s) (spawned s) (pid :: running s) (console s)).

Definition proc_gone (pid : nat) : M unit :=
  fun s => (Ok tt,
            mkState (results s) (spawned s)
                    (List.filter (fun p => negb (Nat.eqb p pid)) (running s))
                    (console s)).

(** [process.kill()] *)
Definition kill (pid : nat) : M unit := proc_gone pid.

(** ** The runner *)

(** The immutable attributes of a [TestRunner] object.  [verbose] is
    assigned by [main] after construction; [None] is the object that
    has no such attribute. *)
Record TestRunner (timeout_t : Type) : Type := mkRunner {
  binary_path : str;
  tests_file : str;
  timeout : timeout_t;
  verbose : option bool
}.

(** The parsed command line. *)
Record args_t (timeout_t : Type) : Type := mkArgs {
  arg_binary : str;
  arg_tests : str;
  arg_verbose : bool;
  arg_timeout : timeout_t
}.

Definition no_results : results_t := mkResults 0 0 0 [].

(** The state in which the interpreter starts [main]. *)
Definition boot : state := mkState no_results 0 [] [].

Section Runner.

(** The type of the timeout ([int] or [float]) and its rendering by
    an f-string. *)
Variable timeout_t : Type.
Variable timeout_str : timeout_t -> str.

(** [Path(p).exists()] *)
Variable path_exists : str -> bool.

(** [open(p)] followed by [json.load]. *)
Variable json_load : str -> outcome json.

(** The event of the [n]-th [Popen] call (counted from 0) on a binary,
    given the value handed to [communicate] and the time limit. *)
Variable child : str -> nat -> json -> timeout_t -> child_event.

(** [TestRunner.__init__].  The two paths are kept as given: the
    environment functions [path_exists], [json_load] and [child] stand
    for the operations on the [Path] objects made from them.  Only the
    two messages show the text of a [Path]. *)
Definition __init__ (binary tests : str) (t : timeout_t) : M (TestRunner timeout_t) :=
  set_results no_results ;;
  if negb (path_exists binary)
  then raise (FileNotFoundError
                (py "Binary not found: " ++ PyPath.path_str binary))
  else if negb (path_exists tests)
  then raise (FileNotFoundError
                (py "Tests file not found: " ++ PyPath.path_str tests))
  else ret (mkRunner binary tests t None).

(** [TestRunner.load_tests] *)
Definition load_tests (self : TestRunner timeout_t) : M json :=
  lift (json_load (tests_file self)).

(** The [try] statement of [run_single_test]: the protected block
    ([Popen], [communicate], the comparison) and its two handlers,
    [except subprocess.TimeoutExpired] and [except Exception].  A child
    that [communicate] has waited for is gone when the block is left,
    so only a child that outlives [communicate] is entered in the
    process table; the first handler then kills it, the second one
    leaves it alone. *)
Definition try_block (self : TestRunner timeout_t) (input_data : json) (expected_output : str)
  : M (bool * option str * option str) :=
  pid <- next_pid ;;
  match child (binary_path self) pid input_data (timeout self) with
  | SpawnFails msg =>
      ret (false, None, Some (py "Error: " ++ msg))
  | Exits stdout stderr returncode =>
      let actual_output := strip stdout in
      if eqb actual_output expected_output
      then ret (true, Some actual_output, None)
      else ret (false, Some actual_output, Some (py "Output mismatch"))
  | Overruns =>
      proc_started pid ;;
      kill pid ;;
      ret (false, None,
           Some (py "Timeout (" ++ timeout_str (timeout self) ++ py "s)"))
  | CommFails msg alive =>
      (if alive then proc_started pid else ret tt) ;;
      ret (false, None, Some (py "Error: " ++ msg))
  end.

(** [TestRunner.run_single_test].  The three [get] calls and the
    [strip] of the expected value come before the [try]. *)
Definition run_single_test (self : TestRunner timeout_t) (test_case : json)
  : M (bool * option str * option str) :=
  test_name <- lift (dict_get test_case (py "name") (JStr (py "Unnamed test"))) ;;
  input_data <- lift (dict_get test_case (py "input") (JStr [])) ;;
  expected_raw <- lift (dict_get test_case (py "expected") (JStr [])) ;;
  expected_output <- lift (method_strip expected_raw) ;;
  try_block self input_data expected_output.

(** [TestRunner.print_failure_details] *)
Definition print_failure_details (failure : failure_info) : M unit :=
  print (PrDetailsFor (f_test failure)) ;;
  print (PrDetailsInput (f_input failure)) ;;
  print (PrDetailsExpected (f_expected failure)) ;;
  match f_actual failure with
  | Some a => print (PrDetailsActual a)
  | None => ret tt
  end ;;
  match f_error failure with
  | Some e => if truthy e then print (PrDetailsError e) else ret tt
  | None => ret tt
  end ;;
  print PrBlank.

(** [hasattr(self, 'verbose') and self.verbose] *)
Definition is_verbose (self : TestRunner timeout_t) : bool :=
  match verbose self with
  | Some b => b
  | None => false
  end.

(** The body of the [for] loop of [run_all_tests], for the case at
    position [i] (counted from 1) of a suite of [n] cases. *)
Definition loop_body (self : TestRunner timeout_t) (n i : nat) (test_case : json) : M unit :=
  test_name <- lift (dict_get test_case (py "name")
                              (JStr (py "Test " ++ str_of_nat i))) ;;
  print (PrCase i n test_name) ;;
  r <- run_single_test self test_case ;;
  let '(passed_, actual, error) := r in
  res <- get_results ;;
  set_results (mkResults (passed res) (failed res) (total res + 1) (failures res)) ;;
  if passed_ then
    res <- get_results ;;
    set_results (mkResults (passed res + 1) (failed res) (total res) (failures res)) ;;
    print PrPassed
  else
    res <- get_results ;;
    set_results (mkResults (passed res) (failed res + 1) (total res) (failures res)) ;;
    print PrFailed ;;
    input_ <- lift (dict_get test_case (py "input") (JStr [])) ;;
    expected_ <- lift (dict_get test_case (py "expected") (JStr [])) ;;
    let failure := mkFailure test_name input_ expected_ actual error in
    res <- get_results ;;
    set_results (mkResults (passed res) (failed res) (total res)
                           (failures res ++ [failure])) ;;
    if is_verbose self then print_failure_details failure else ret tt.

Fixpoint for_each (self : TestRunner timeout_t) (n i : nat) (items : list json) : M unit :=
  match items with
  | [] => ret tt
  | test_case :: rest =>
      loop_body self n i test_case ;;
      for_each self n (S i) rest
  end.

(** [TestRunner.run_all_tests] *)
Definition run_all_tests (self : TestRunner timeout_t) : M unit :=
  tests <- load_tests self ;;
  cases <- lift (subscript tests (py "test_cases")) ;;
  n <- lift (py_len cases) ;;
  print (PrRunning n) ;;
  items <- lift (py_iter cases) ;;
  for_each self n 1 items.

(** The lines printed for one entry of the final list of failures. *)
Definition print_item (failure : failure_info) : M unit :=
  print (PrItem (f_test failure)) ;;
  print (PrItemInput (f_input failure)) ;;
  print (PrItemExpected (f_expected failure)) ;;
  match f_actual failure with
  | Some a => print (PrItemActual a)
  | None => ret tt
  end ;;
  match f_error failure with
  | Some e => if truthy e then print (PrItemError e) else ret tt
  | None => ret tt
  end.

Fixpoint print_items (fs : list failure_info) : M unit :=
  match fs with
  | [] => ret tt
  | failure :: rest => print_item failure ;; print_items rest
  end.

(** [TestRunner.print_summary]; the value returned is the exit
    status. *)
Definition print_summary (self : TestRunner timeout_t) : M Z :=
  res <- get_results ;;
  print PrRule ;;
  print (PrTotal (total res)) ;;
  print (PrPassedCount (passed res)) ;;
  print (PrFailedCount (failed res)) ;;
  (if 0 <? failed res
   then print PrFailedTests ;; print_items (failures res)
   else ret tt) ;;
  print PrRule ;;
  ret (if failed res =? 0 then 0%Z else 1%Z).

(** The [try] block of [main]. *)
Definition main_try (args : args_t timeout_t) : M Z :=
  r <- __init__ (arg_binary args) (arg_tests args) (arg_timeout args) ;;
  let r := mkRunner (binary_path r) (tests_file r) (timeout r)
                    (Some (arg_verbose args)) in
  run_all_tests r ;;
  exit_code <- print_summary r ;;
  ret exit_code.

(** [main], from the parsed arguments to the status given to
    [sys.exit]. *)
Definition main (args : args_t timeout_t) (s : state) : Z * state :=
  match main_try args s with
  | (Ok exit_code, s') => (exit_code, s')
  | (Raise e, s') =>
      match print (PrFatal e) s' with
      | (_, s'') => (1%Z, s'')
      end
  end.

End Runner.

(** ** Vocabulary of the statements *)

(** The value of [d.get(k, default)] on the dictionary with fields
    [fs]. *)
Definition field (k : str) (default : json) (fs : list (str * json)) : json :=
  match lookup k fs with
  | Some v => v
  | None => default
  end.

(** A test case of the documented shape, as far as the runner depends
    on it: a dictionary whose [expected] entry, when present, is a
    string. *)
Definition well_shaped (test_case : json) : bool :=
  match test_case with
  | JObj fs =>
      match field (py "expected") (JStr []) fs with
      | JStr _ => true
      | _ => false
      end
  | _ => false
  end.

(** The positional label of the case at position [i] (from 1). *)
Definition positional_label (i : nat) : json :=
  JStr (py "Test " ++ str_of_nat i).

(** The failure record of one case, if the case does not pass: [i] is
    its position in the suite (from 1), [pid] the number of [Popen]
    calls made before it.  The verdict is the one [run_single_test]
    computes; it does not depend on the tally, the process table or the
    console. *)
Definition record_of (timeout_t : Type) (timeout_str : timeout_t -> str)
    (child : str -> nat -> json -> timeout_t -> child_event)
    (self : TestRunner timeout_t) (i pid : nat) (test_case : json)
  : list failure_info :=
  match test_case with
  | JObj fs =>
      match fst (run_single_test timeout_str child self test_case
                                 (mkState no_results pid [] [])) with
      | Ok (false, actual, error) =>
          [mkFailure (field (py "name") (positional_label i) fs)
                     (field (py "input") (JStr []) fs)
                     (field (py "expected") (JStr []) fs)
                     actual error]
      | _ => []
      end
  | _ => []
  end.

(** The failure records of a suite, case by case in suite order. *)
Fixpoint records_from (timeout_t : Type) (timeout_str : timeout_t -> str)
    (child : str -> nat -> json -> timeout_t -> child_event)
    (self : TestRunner timeout_t) (i pid : nat) (items : list json)
  : list failure_info :=
  match items with
  | [] => []
  | test_case :: rest =>
      record_of timeout_str child self i pid test_case
      ++ records_from timeout_str child self (S i) (S pid) rest
  end.

(** The message of the [TimeoutExpired] handler. *)
Definition timeout_message (timeout_t : Type) (timeout_str : timeout_t -> str)
    (self : TestRunner timeout_t) : str :=
  py "Timeout (" ++ timeout_str (timeout self) ++ py "s)".

(** The state after a [Popen] call whose child is gone when
    [run_single_test] returns. *)
Definition after_spawn (s : state) : state :=
  mkState (results s) (S (spawned s)) (running s) (console s).

(** The tally after one more passed case. *)
Definition count_pass (r : results_t) : results_t :=
  mkResults (passed r + 1) (failed r) (total r + 1) (failures r).

(** The tally after one more failed case with record [f]. *)
Definition count_fail (r : results_t) (f : failure_info) : results_t :=
  mkResults (passed r) (failed r + 1) (total r + 1) (failures r ++ [f]).

(** The console lines of [print_failure_details]. *)
Definition detail_lines (f : failure_info) : list out_line :=
  [PrDetailsFor (f_test f); PrDetailsInput (f_input f);
   PrDetailsExpected (f_expected f)]
  ++ match f_actual f with Some a => [PrDetailsActual a] | None => [] end
  ++ match f_error f with
     | Some e => if truthy e then [PrDetailsError e] else []
     | None => []
     end
  ++ [PrBlank].

(** The console lines of one entry of the final list of failures. *)
Definition item_lines (f : failure_info) : list out_line :=
  [PrItem (f_test f); PrItemInput (f_input f); PrItemExpected (f_expected f)]
  ++ match f_actual f with Some a => [PrItemActual a] | None => [] end
  ++ match f_error f with
     | Some e => if truthy e then [PrItemError e] else []
     | None => []
     end.

(** The same state with more lines on the console. *)
Definition printed (s : state) (ls : list out_line) : state :=
  mkState (results s) (spawned s) (running s) (console s ++ ls).

(** The state in which [loop_body] leaves a case whose [try] block
    returned the triple [r] in state [s1]. *)
Definition settle (timeout_t : Type) (self : TestRunner timeout_t)
    (name inp exp : json)
    (r : bool * option str * option str) (s1 : state) : state :=
  let '(p, a, err) := r in
  if p then
    mkState (count_pass (results s1)) (spawned s1) (running s1)
            (console s1 ++ [PrPassed])
  else
    let f := mkFailure name inp exp a err in
    mkState (count_fail (results s1) f) (spawned s1) (running s1)
            (console s1 ++ [PrFailed]
             ++ if is_verbose self then detail_lines f else []).

(** The console lines of [print_summary] for a tally. *)
Definition summary_lines (r : results_t) : list out_line :=
  [PrRule; PrTotal (total r); PrPassedCount (passed r); PrFailedCount (failed r)]
  ++ (if 0 <? failed r
      then PrFailedTests :: flat_map item_lines (failures r)
      else [])
  ++ [PrRule].

(** The exit status for a tally. *)
Definition status_of (r : results_t) : Z :=
  if failed r =? 0 then 0%Z else 1%Z.

(** The state after the first statement of [__init__]. *)
Definition reset (s : state) : state :=
  mkState no_results (spawned s) (running s) (console s).

(** The runner that [main] drives. *)
Definition runner_of (timeout_t : Type) (args : args_t timeout_t)
  : TestRunner timeout_t :=
  mkRunner (arg_binary args) (arg_tests args) (arg_timeout args)
           (Some (arg_verbose args)).

(** ** A concrete environment

    A subject binary that copies its standard input to its standard
    output and adds a newline, except that it never returns on the
    input [sleep] and breaks its pipe on the input [crash]; a second
    build of it that also writes on standard error and exits with
    status 3; a file system with one readable suite. *)
Module Demo.

Definition timeout_str (t : nat) : str := str_of_nat t.

Definition path_exists (p : str) : bool :=
  eqb p (py "./echo") || eqb p (py "./locked")
  || eqb p (py "suite.json") || eqb p (py "broken.json")
  || eqb p (py "odd.json") || eqb p (py "empty.json").

Definition mismatch_case : json :=
  JObj [(py "name", JStr (py "dup"));
        (py "input", JStr (py "a"));
        (py "expected", JStr (py " b "))].

Definition unnamed_case : json :=
  JObj [(py "input", JStr (py "x")); (py "expected", JStr (py "x"))].

Definition sleepy_case : json :=
  JObj [(py "name", JStr (py "dup")); (py "input", JStr (py "sleep"))].

Definition bare_case : json := JObj [].

Definition crash_case : json :=
  JObj [(py "input", JStr (py "crash")); (py "expected", JStr (py "crash"))].

Definition odd_case : json := JObj [(py "expected", JNum 5)].

Definition cases : list json :=
  [mismatch_case; unnamed_case; sleepy_case; bare_case; mismatch_case].

Definition suite : json := JObj [(py "test_cases", JArr cases)].

Definition odd_suite : json :=
  JObj [(py "test_cases", JArr [unnamed_case; odd_case; unnamed_case])].

Definition json_load (p : str) : outcome json :=
  if eqb p (py "suite.json") then Ok suite
  else if eqb p (py "odd.json") then Ok odd_suite
  else if eqb p (py "empty.json") then Ok (JObj [(py "test_cases", JArr [])])
  else Raise (LoadFailure (py "Expecting value")).

Definition child (binary : str) (n : nat) (input : json) (t : nat)
  : child_event :=
  if eqb binary (py "./locked") then SpawnFails (py "Permission denied")
  else
    match input with
    | JStr s =>
        if eqb s (py "sleep") then Overruns
        else if eqb s (py "crash") then CommFails (py "Broken pipe") true
        else Exits (s ++ [10%N]) [] 0
    | _ => CommFails (py "bad input") false
    end.

Definition noisy_child (binary : str) (n : nat) (input : json) (t : nat)
  : child_event :=
  match child binary n input t with
  | Exits out _ _ => Exits out (py "warning") 3
  | e => e
  end.

Definition spaced_case : json :=
  JObj [(py "input", JStr (py " 42")); (py "expected", JStr (py "42"))].

Definition padded_case : json :=
  JObj [(py "name", JStr (py "padded"));
        (py "input", JStr (py "7"));
        (py "expected", JStr (py " 8 "))].

Definition self : TestRunner nat :=
  mkRunner (py "./echo") (py "suite.json") 5 (Some true).

Definition odd_self : TestRunner nat :=
  mkRunner (py "./echo") (py "odd.json") 5 (Some true).

Definition empty_self : TestRunner nat :=
  mkRunner (py "./echo") (py "empty.json") 5 (Some true).


Definition lost_args : args_t nat :=
  mkArgs (py "./gone") (py "suite.json") false 5.

Definition args : args_t nat :=
  mkArgs (py "./echo") (py "suite.json") true 5.

End Demo.

(** ** Text mode

    [Popen(..., text=True)] makes [communicate] decode what the child
    wrote on its standard output and on its standard error, in this
    order, and turn the line ends of both into newlines.  A decoding
    error is raised by [communicate], after the child has been waited
    for.  The events of [child_event] are those of a child seen through
    this layer; here is the layer itself, for a child given by the
    bytes it writes. *)
Module TextMode.

(** The result of [bytes.decode]: the text, or the message of the
    [UnicodeDecodeError]. *)
Inductive decoded : Type :=
| Decoded (s : str)
| Undecodable (msg : str).

(** A child as the operating system sees it. *)
Inductive raw_event : Type :=
| RawSpawnFails (msg : str)
| RawExits (stdout stderr : list N) (returncode : Z)
| RawOverruns
| RawCommFails (msg : str) (alive : bool).

(** Universal newlines: [\r\n] and [\r] become [\n]. *)
Fixpoint translate_newlines (s : str) : str :=
  match s with
  | [] => []
  | c :: s' =>
      if N.eqb c 13%N then
        match s' with
        | c' :: s'' =>
            if N.eqb c' 10%N then 10%N :: translate_newlines s''
            else 10%N :: translate_newlines s'
        | [] => [10%N]
        end
      else c :: translate_newlines s'
  end.

(** [communicate] in text mode, for the codec [decode]. *)
Definition communicate_text (decode : list N -> decoded) (r : raw_event)
  : child_event :=
  match r with
  | RawSpawnFails msg => SpawnFails msg
  | RawExits out err rc =>
      match decode out with
      | Undecodable msg => CommFails msg false
      | Decoded o =>
          match decode err with
          | Undecodable msg => CommFails msg false
          | Decoded e =>
              Exits (translate_newlines o) (translate_newlines e) rc
          end
      end
  | RawOverruns => Overruns
  | RawCommFails msg alive => CommFails msg alive
  end.

(** The child that the runner sees when the binary behaves as [raw]. *)
Definition text_child (timeout_t : Type) (decode : list N -> decoded)
    (raw : str -> nat -> json -> timeout_t -> raw_event)
  : str -> nat -> json -> timeout_t -> child_event :=
  fun binary n input t => communicate_text decode (raw binary n input t).

(** *** The UTF-8 codec, with the messages of its errors *)

Inductive utf8_error : Type :=
| EndOfData
| InvalidStart
| InvalidContinuation (k : nat).

Definition is_continuation (b : N) : bool := ((128 <=? b) && (b <=? 191))%N.

(** The character at the head of [bs] and what follows it, or the
    error found there. *)
Definition utf8_step (bs : list N) : (char * list N) + utf8_error :=
  match bs with
  | [] => inr EndOfData
  | ch :: r =>
      if (ch <? 128)%N then inl (ch, r)
      else if (ch <? 194)%N then inr InvalidStart
      else if (ch <? 224)%N then
        match r with
        | [] => inr EndOfData
        | c2 :: r2 =>
            if is_continuation c2
            then inl (((ch - 192) * 64 + (c2 - 128))%N, r2)
            else inr (InvalidContinuation 1)
        end
      else if (ch <? 240)%N then
        match r with
        | [] => inr EndOfData
        | c2 :: r2 =>
            if negb (is_continuation c2)
               || (if (c2 <? 160)%N then (ch =? 224)%N else (ch =? 237)%N)
            then inr (InvalidContinuation 1)
            else
              match r2 with
              | [] => inr EndOfData
              | c3 :: r3 =>
                  if is_continuation c3
                  then inl (((ch - 224) * 4096 + (c2 - 128) * 64
                             + (c3 - 128))%N, r3)
                  else inr (InvalidContinuation 2)
              end
        end
      else if (ch <? 245)%N then
        match r with
        | [] => inr EndOfData
        | c2 :: r2 =>
            if negb (is_continuation c2)
               || (if (c2 <? 144)%N then (ch =? 240)%N else (ch =? 244)%N)
            then inr (InvalidContinuation 1)
            else
              match r2 with
              | [] => inr EndOfData
              | c3 :: r3 =>
                  if negb (is_continuation c3)
                  then inr (InvalidContinuation 2)
                  else
                    match r3 with
                    | [] => inr EndOfData
                    | c4 :: r4 =>
                        if is_continuation c4
                        then inl (((ch - 240) * 262144 + (c2 - 128) * 4096
                                   + (c3 - 128) * 64 + (c4 - 128))%N, r4)
                        else inr (InvalidContinuation 3)
                    end
              end
        end
      else inr InvalidStart
  end.

Definition hex_digit (d : N) : char :=
  if (d <? 10)%N then (48 + d)%N else (87 + d)%N.

(** [str(e)] for the [UnicodeDecodeError] raised at position [pos],
    where the bytes [bs] begin. *)
Definition utf8_message (pos : nat) (bs : list N) (e : utf8_error) : str :=
  let width :=
    match e with
    | EndOfData => List.length bs
    | InvalidStart => 1
    | InvalidContinuation k => k
    end in
  py "'utf-8' codec can't decode "
  ++ match width with
     | 1 =>
         let b := hd 0%N bs in
         py "byte 0x" ++ [hex_digit (b / 16); hex_digit (b mod 16)]
         ++ py " in position " ++ str_of_nat pos
     | _ =>
         py "bytes in position " ++ str_of_nat pos ++ py "-"
         ++ str_of_nat (pos + width - 1)
     end
  ++ py ": "
  ++ match e with
     | EndOfData => py "unexpected end of data"
     | InvalidStart => py "invalid start byte"
     | InvalidContinuation _ => py "invalid continuation byte"
     end.

Fixpoint utf8_loop (fuel pos : nat) (bs : list N) : decoded :=
  match bs with
  | [] => Decoded []
  | _ :: _ =>
      match fuel with
      | 0 => Decoded []
      | S fuel' =>
          match utf8_step bs with
          | inl (c, rest) =>
              match utf8_loop fuel'
                              (pos + (List.length bs - List.length rest))
                              rest with
              | Decoded s => Decoded (c :: s)
              | Undecodable msg => Undecodable msg
              end
          | inr e => Undecodable (utf8_message pos bs e)
          end
      end
  end.

(** [bs.decode('utf-8')]; every step consumes a byte, so the length of
    [bs] is fuel enough. *)
Definition utf8_decode (bs : list N) : decoded :=
  utf8_loop (List.length bs) 0 bs.

End TextMode.

(** The text is printable ASCII: every console encoding has it. *)
Definition plain (s : str) : bool :=
  forallb (fun c => ((32 <=? c) && (c <=? 126))%N) s.


(** ** Vocabulary of the statements on whole runs *)

(** The tally is consistent: every counted case is passed or failed,
    and every failed case has its record. *)
Definition tally_ok (r : results_t) : Prop :=
  passed r + failed r = total r /\ List.length (failures r) = failed r.

(** Every child of the process table was spawned by a [Popen] call
    already counted. *)
Definition fresh (s : state) : Prop :=
  Forall (fun p => p < spawned s) (running s).

(** A record with a non-empty error message. *)
Definition has_error (f : failure_info) : bool :=
  match f_error f with
  | Some e => truthy e
  | None => false
  end.

(** The lines of [print_failure_details]. *)
Definition is_detail_line (l : out_line) : bool :=
  match l with
  | PrDetailsFor _ | PrDetailsInput _ | PrDetailsExpected _
  | PrDetailsActual _ | PrDetailsError _ | PrBlank => true
  | _ => false
  end.

(** The console lines of one case of a run that gets through it: the
    header with position and name, the verdict, and the details of a
    failure when the runner is verbose.  [pid] is the number of
    [Popen] calls made before the case. *)
Definition lines_of_case (timeout_t : Type) (timeout_str : timeout_t -> str)
    (child : str -> nat -> json -> timeout_t -> child_event)
    (self : TestRunner timeout_t) (n i pid : nat) (test_case : json)
  : list out_line :=
  match test_case with
  | JObj fs =>
      PrCase i n (field (py "name") (positional_label i) fs)
      :: match fst (run_single_test timeout_str child self test_case
                                    (mkState no_results pid [] [])) with
         | Ok (true, _, _) => [PrPassed]
         | Ok (false, actual, error) =>
             PrFailed
             :: (if is_verbose self
                 then detail_lines
                        (mkFailure (field (py "name") (positional_label i) fs)
                                   (field (py "input") (JStr []) fs)
                                   (field (py "expected") (JStr []) fs)
                                   actual error)
                 else [])
         | Raise _ => []
         end
  | _ => []
  end.

Fixpoint lines_from (timeout_t : Type) (timeout_str : timeout_t -> str)
    (child : str -> nat -> json -> timeout_t -> child_event)
    (self : TestRunner timeout_t) (n i pid : nat) (items : list json)
  : list out_line :=
  match items with
  | [] => []
  | test_case :: rest =>
      lines_of_case timeout_str child self n i pid test_case
      ++ lines_from timeout_str child self n (S i) (S pid) rest
  end.

(** The children that a run over [items] leaves behind, latest first:
    those whose [communicate] call failed, other than by a timeout,
    while they were still running. *)
Fixpoint leaked_from (timeout_t : Type)
    (child : str -> nat -> json -> timeout_t -> child_event)
    (self : TestRunner timeout_t) (pid : nat) (items : list json)
  : list nat :=
  match items with
  | [] => []
  | test_case :: rest =>
      leaked_from child self (S pid) rest
      ++ match test_case with
         | JObj fs =>
             match child (binary_path self) pid
                         (field (py "input") (JStr []) fs) (timeout self) with
             | CommFails _ true => [pid]
             | _ => []
             end
         | _ => []
         end
  end.

(** The exception that the opening lines of [run_all_tests] raise on a
    loaded document, if any: [KeyError] when a dictionary has no
    [test_cases] key, [TypeError] when the document is not a dictionary
    or when the value of the key has no length. *)
Definition suite_shape_error (tests : json) : option exn :=
  match tests with
  | JObj fs =>
      match lookup (py "test_cases") fs with
      | None => Some KeyError
      | Some (JStr _) | Some (JArr _) | Some (JObj _) => None
      | Some _ => Some TypeError
      end
  | _ => Some TypeError
  end.

(** A string that neither begins nor ends with white space. *)
Definition trimmed (a : str) : bool :=
  match a with
  | [] => true
  | c :: _ => negb (isspace c)
  end
  && match rev a with
     | [] => true
     | c :: _ => negb (isspace c)
     end.

(** ** A second environment

    The same subject binary, with a file system that also holds
    documents of unexpected shapes. *)
Module Shapes.

Definition path_exists (p : str) : bool :=
  eqb p (py "./echo") || eqb p (py "nokey.json") || eqb p (py "text.json")
  || eqb p (py "crash.json") || eqb p (py "suite.json").

Definition crash_cases : list json :=
  [Demo.unnamed_case; Demo.crash_case; Demo.sleepy_case; Demo.crash_case].

Definition json_load (p : str) : outcome json :=
  if eqb p (py "nokey.json") then Ok (JObj [(py "tests", JArr [])])
  else if eqb p (py "text.json")
  then Ok (JObj [(py "test_cases", JStr (py "ab"))])
  else if eqb p (py "crash.json")
  then Ok (JObj [(py "test_cases", JArr crash_cases)])
  else Demo.json_load p.

Definition nokey_args : args_t nat :=
  mkArgs (py "./echo") (py "nokey.json") true 5.

Definition text_args : args_t nat :=
  mkArgs (py "./echo") (py "text.json") true 5.

Definition notests_args : args_t nat :=
  mkArgs (py "./echo") (py "missing.json") true 5.


Definition crash_self : TestRunner nat :=
  mkRunner (py "./echo") (py "crash.json") 5 (Some false).

Definition quiet_self : TestRunner nat :=
  mkRunner (py "./echo") (py "suite.json") 5 None.


Definition dotted_args : args_t nat :=
  mkArgs (py "./echo") (py "./missing.json") true 5.

(** A subject binary that tells whether its input was empty. *)
Definition probe_child (binary : str) (n : nat) (input : json) (t : nat)
  : child_event :=
  match input with
  | JStr [] => Exits (py "no input") [] 0
  | _ => Exits (py "some input") [] 0
  end.

Definition probe_self : TestRunner nat :=
  mkRunner (py "./probe") (py "suite.json") 5 (Some false).

(** Three builds of a binary that writes the line [x] on its standard
    output whatever it reads: the first writes nothing else, the
    second also writes a warning and exits with status 3, the third
    also writes two bytes that are no UTF-8 text. *)
Definition silent_raw (binary : str) (n : nat) (input : json) (t : nat)
  : TextMode.raw_event :=
  TextMode.RawExits [120%N; 10%N] [] 0.

Definition warning_raw (binary : str) (n : nat) (input : json) (t : nat)
  : TextMode.raw_event :=
  TextMode.RawExits [120%N; 10%N] (py "warning" ++ [13%N; 10%N]) 3.

Definition garbled_raw (binary : str) (n : nat) (input : json) (t : nat)
  : TextMode.raw_event :=
  TextMode.RawExits [120%N; 10%N] [255%N; 254%N] 0.

Definition x_case : json :=
  JObj [(py "name", JStr (py "x")); (py "expected", JStr (py "x"))].

End Shapes.

(** * The downloader

    Shallow embedding of [src/main.py]: the resolution of image
    addresses and the loop that fetches the numbered pages of one
    series and decides when to give up.

    The network is an oracle that answers the successive page
    requests.  [process_html] saves the page and its images through
    the file system and further requests; here its call is recorded,
    with the letter and the number it is given.  A second oracle tells
    of every action that stands outside a [try] (the call of
    [process_html], a [print], the making of the output directory)
    whether it returns or raises. *)
Module Downloader.

Definition BASE_URL : str :=
  py "https://mppexam.blob.core.windows.net/comission-2025/".

Definition DIFFICULTIES : list str := [py "A"; py "B"; py "C"].

Definition DEFAULT_MAX_NUM : Z := 999.

Definition CONSECUTIVE_MISSES_LIMIT : nat := 25.

(** [s.startswith(prefix)] *)
Fixpoint startswith (s prefix : str) : bool :=
  match prefix with
  | [] => true
  | p :: prefix' =>
      match s with
      | [] => false
      | c :: s' => N.eqb c p && startswith s' prefix'
      end
  end.

(** [s.lstrip(chars)]: the leading characters that occur in [chars]
    are removed. *)
Fixpoint lstrip_chars (chars s : str) : str :=
  match s with
  | [] => []
  | c :: s' => if existsb (N.eqb c) chars then lstrip_chars chars s' else s
  end.

(** [resolve_url] *)
Definition resolve_url (src : str) : str :=
  if startswith src (py "http://") || startswith src (py "https://")
  then src
  else BASE_URL ++ lstrip_chars (py "/") src.

(** [needle in hay], for byte strings. *)
Fixpoint contains (needle hay : list N) : bool :=
  startswith hay needle
  || match hay with
     | [] => false
     | _ :: hay' => contains needle hay'
     end.

(** What the loop reads of a [requests.Response]. *)
Record response : Type := mkResponse {
  status_code : Z;
  content : list N
}.

(** What [SESSION.get] does: it raises a [RequestException] or returns
    a response. *)
Inductive get_result : Type :=
| RequestFails (err : str)
| Responds (resp : response).

(** [resp.status_code == 200 and b"404" not in resp.content[:512]] *)
Definition valid (resp : response) : bool :=
  (status_code resp =? 200)%Z
  && negb (contains (py "404") (firstn 512 (content resp))).

(** [f"{num:03d}"] for a non-negative number. *)
Definition pad3 (num : nat) : str :=
  repeat 48%N (3 - List.length (str_of_nat num)) ++ str_of_nat num.

(** The address of page [num] of a series. *)
Definition page_url (letter : str) (num : nat) : str :=
  BASE_URL ++ (letter ++ pad3 num ++ py ".html").

(** What a run does, in order: the making of the output directory,
    the header line of a series, a page request, the line about a
    failed request, the call of [process_html], the line about giving
    up, the last line; and [EvRaised] after an action that raised
    instead of returning. *)
Inductive event : Type :=
| EvOutDir
| EvHeader (letter : str)
| EvGet (url : str)
| EvError (url err : str)
| EvProcess (letter : str) (num : nat) (resp : response)
| EvStop (letter : str) (num : nat)
| EvDone
| EvRaised.

(** The number of page requests sent so far, and the events so far,
    oldest first. *)
Record dstate : Type := mkD {
  sent : nat;
  trace : list event
}.

Definition start : dstate := mkD 0 [].

Definition emit (e : event) (st : dstate) : dstate :=
  mkD (sent st) (trace st ++ [e]).

Definition count_request (url : str) (st : dstate) : dstate :=
  mkD (S (sent st)) (trace st ++ [EvGet url]).

Section Net.

(** The answer to the [k]-th page request (from 0), made for [url]. *)
Variable http_get : nat -> str -> get_result.

(** Whether an action, begun when [k] page requests have been sent,
    returns; otherwise it raises: [process_html] when a file cannot be
    written or a directory cannot be made, [print] when the console
    cannot encode the line (the line about giving up starts with an
    arrow that is not ASCII), [mkdir] when the directory cannot be
    made.  Nothing in [download_series] or [main] catches any of
    these. *)
Variable returns : nat -> event -> bool.

(** An action outside a [try]: the boolean tells whether it returned. *)
Definition perform (e : event) (st : dstate) : bool * dstate :=
  if returns (sent st) e then (true, emit e st)
  else (false, emit EvRaised (emit e st)).

(** The [for] loop of [download_series] over the numbers still to try,
    with the current values of [misses] and [found_any].  The boolean
    of the result tells whether the loop was left normally ([true]) or
    by an exception ([false]). *)
Fixpoint series_loop (letter : str) (nums : list nat) (misses : nat)
    (found_any : bool) (st : dstate) : bool * dstate :=
  match nums with
  | [] => (true, st)
  | num :: rest =>
      let url := page_url letter num in
      match http_get (sent st) url with
      | RequestFails err =>
          match perform (EvError url err) (count_request url st) with
          | (true, st1) => series_loop letter rest misses found_any st1
          | (false, st1) => (false, st1)
          end
      | Responds resp =>
          if valid resp then
            match perform (EvProcess letter num resp)
                          (count_request url st) with
            | (true, st1) => series_loop letter rest 0 true st1
            | (false, st1) => (false, st1)
            end
          else if found_any then
            if CONSECUTIVE_MISSES_LIMIT <=? misses + 1
            then perform (EvStop letter num) (count_request url st)
            else series_loop letter rest (misses + 1) found_any
                             (count_request url st)
          else series_loop letter rest misses found_any (count_request url st)
      end
  end.

(** [download_series]: the numbers tried are [range(1, max_num + 1)]. *)
Definition download_series (letter : str) (max_num : Z) (st : dstate)
  : bool * dstate :=
  series_loop letter (seq 1 (Z.to_nat max_num)) 0 false st.

(** The loop of [main] over the given series: an exception ends it. *)
Fixpoint all_series (letters : list str) (max_num : Z) (st : dstate)
  : bool * dstate :=
  match letters with
  | [] => (true, st)
  | letter :: rest =>
      match perform (EvHeader letter) st with
      | (true, st0) =>
          match download_series letter max_num st0 with
          | (true, st1) => all_series rest max_num st1
          | (false, st1) => (false, st1)
          end
      | (false, st0) => (false, st0)
      end
  end.

(** [main], from the making of the output directory on, [max_num]
    being the parsed option.  The result is the state in which the
    program ends. *)
Definition main (max_num : Z) (st : dstate) : dstate :=
  match perform EvOutDir st with
  | (true, st0) =>
      match all_series DIFFICULTIES max_num st0 with
      | (true, st1) => snd (perform EvDone st1)
      | (false, st1) => st1
      end
  | (false, st0) => st0
  end.

End Net.

(** The page requests of a trace. *)
Definition gets (tr : list event) : list str :=
  flat_map (fun e => match e with EvGet url => [url] | _ => [] end) tr.

(** The pages handed to [process_html] in a trace. *)
Definition processed (tr : list event) : list (str * nat) :=
  flat_map (fun e => match e with
                     | EvProcess letter num _ => [(letter, num)]
                     | _ => []
                     end) tr.

(** The pages at which a series was given up in a trace. *)
Definition stops (tr : list event) : list (str * nat) :=
  flat_map (fun e => match e with
                     | EvStop letter num => [(letter, num)]
                     | _ => []
                     end) tr.

(** What an iteration has done when it is over: one request more, for
    [url], and the pages [extra] handed to [process_html]. *)
Definition one_more (url : str) (extra : list (str * nat))
    (st1 st : dstate) : Prop :=
  sent st1 = S (sent st)
  /\ gets (trace st1) = gets (trace st) ++ [url]
  /\ processed (trace st1) = processed (trace st) ++ extra
  /\ stops (trace st1) = stops (trace st).

(** How the loop over the numbers [a, a + 1, ...] ([len] of them) can
    end after [k] requests: at the end of the numbers; by giving up at
    the last number requested; or by an exception in the iteration of
    the last number requested. *)
Definition ending (letter : str) (a len k : nat) (ok : bool)
    (st st' : dstate) : Prop :=
  (ok = true /\ stops (trace st') = stops (trace st) /\ k = len)
  \/ (ok = true
      /\ stops (trace st') = stops (trace st) ++ [(letter, a + k - 1)]
      /\ 1 <= k)
  \/ (ok = false /\ 1 <= k).

(** What the loop over the numbers [a, a + 1, ...] has requested and
    handed on when it ends with [r]. *)
Definition requested (letter : str) (a len : nat) (st : dstate)
    (r : bool * dstate) : Prop :=
  exists k,
    k <= len
    /\ sent (snd r) = sent st + k
    /\ gets (trace (snd r))
       = gets (trace st) ++ List.map (page_url letter) (seq a k)
    /\ (exists nums,
          processed (trace (snd r))
          = processed (trace st) ++ List.map (pair letter) nums
          /\ incl nums (seq a k))
    /\ ending letter a len k (fst r) st (snd r).

(** A network on which the pages 1 to 3 of every series exist, page 4
    cannot be fetched, and every other page is an error page. *)
Definition three_pages (k : nat) (url : str) : get_result :=
  if existsb (fun l =>
                existsb (fun n => eqb url (page_url l n)) [1; 2; 3])
             DIFFICULTIES
  then Responds (mkResponse 200 (py "<html><img src=/a.png></html>"))
  else if existsb (fun l => eqb url (page_url l 4)) DIFFICULTIES
  then RequestFails (py "timed out")
  else Responds (mkResponse 404 (py "Not found")).

(** A network that answers the first [j] requests with a page and
    every later one with an error page. *)
Definition pages_then_nothing (j : nat) (k : nat) (url : str) : get_result :=
  if k <? j
  then Responds (mkResponse 200 (py "<html></html>"))
  else Responds (mkResponse 404 (py "Not found")).

(** A machine on which every action returns. *)
Definition always_returns (k : nat) (e : event) : bool := true.

(** A machine on which the second page of a series cannot be saved. *)
Definition second_not_saved (k : nat) (e : event) : bool :=
  match e with
  | EvProcess _ 2 _ => false
  | _ => true
  end.

(** A console that cannot encode the line about giving up. *)
Definition ascii_console (k : nat) (e : event) : bool :=
  match e with
  | EvStop _ _ => false
  | _ => true
  end.

(** A network on which every other request fails and every answer is
    a page. *)
Definition flaky_pages (k : nat) (url : str) : get_result :=
  if Nat.even k
  then Responds (mkResponse 200 (py "<html></html>"))
  else RequestFails (py "timed out").

(** A network without any page. *)
Definition no_pages (k : nat) (url : str) : get_result :=
  Responds (mkResponse 200 (py "<h1>404</h1>")).

End Downloader.

Unset Implicit Arguments.

(** * Properties

    ** Strings *)

Lemma str_eqb_refl (a : str) : eqb a a = true.
Proof.
  induction a as [|x a IH]; simpl; [reflexivity|].
  now rewrite N.eqb_refl, IH.
Qed.

Lemma str_eqb_eq (a b : str) : eqb a b = true <-> a = b.
Proof.
  split.
  - revert b; induction a as [|x a IH]; intros [|y b]; simpl;
      try discriminate; [reflexivity|].
    intros H. apply andb_true_iff in H as [Hx Hr].
    apply N.eqb_eq in Hx. apply IH in Hr. now subst.
  - intros ->. apply str_eqb_refl.
Qed.

Lemma str_eqb_neq (a b : str) : eqb a b = false <-> a <> b.
Proof.
  rewrite <- str_eqb_eq. destruct (eqb a b); split; congruence.
Qed.

Example strip_keeps_inner_blanks :
  strip (py "  a  b " ++ [10%N]) = py "a  b".
Proof. reflexivity. Qed.

Example positional_label_12 : positional_label 12 = JStr (py "Test 12").
Proof. reflexivity. Qed.

Lemma lstrip_app_space (ws s : str) :
  forallb isspace ws = true -> lstrip (ws ++ s) = lstrip s.
Proof.
  induction ws as [|c ws IH]; simpl; [reflexivity|].
  intros H. apply andb_true_iff in H as [Hc Hws].
  rewrite Hc. now apply IH.
Qed.

Lemma lstrip_blank (s : str) :
  forallb isspace s = true -> lstrip s = [].
Proof.
  intros H. rewrite <- (app_nil_r s). now rewrite lstrip_app_space.
Qed.

Lemma rstrip_app_space (s ws : str) :
  forallb isspace ws = true -> rstrip (s ++ ws) = rstrip s.
Proof.
  intros H. unfold rstrip. rewrite rev_app_distr.
  rewrite lstrip_app_space; [reflexivity|].
  rewrite forallb_forall in *. intros c Hc. apply H.
  now apply in_rev.
Qed.

(** White space at both ends is invisible to [strip]. *)
Lemma strip_pad (l s r : str) :
  forallb isspace l = true -> forallb isspace r = true ->
  strip (l ++ s ++ r) = strip s.
Proof.
  intros Hl Hr. unfold strip. rewrite lstrip_app_space by exact Hl.
  destruct (forallb isspace s) eqn:Es.
  - (* [s] itself is blank: everything is stripped *)
    assert (Hsr : forallb isspace (s ++ r) = true)
      by (rewrite forallb_app, Es, Hr; reflexivity).
    rewrite !lstrip_blank by assumption. reflexivity.
  - (* [s] has a first non-blank character: [lstrip] stops inside [s] *)
    assert (Hl' : forall t, lstrip (s ++ t) = lstrip s ++ t).
    { clear Hl Hr l r. induction s as [|c s IH]; [discriminate|].
      intros t. simpl in *. destruct (isspace c); [|reflexivity].
      simpl in Es. now apply IH. }
    rewrite Hl'. now apply rstrip_app_space.
Qed.


(** ** The monad and the JSON accessors *)

Lemma dict_get_obj (fs : list (str * json)) (k : str) (d : json) :
  dict_get (JObj fs) k d = Ok (field k d fs).
Proof.
  unfold dict_get, field. now destruct (lookup k fs).
Qed.

Lemma well_shaped_inv (tc : json) :
  well_shaped tc = true ->
  exists fs e, tc = JObj fs /\ field (py "expected") (JStr []) fs = JStr e.
Proof.
  destruct tc as [| | | | |fs]; simpl; try discriminate.
  destruct (field (py "expected") (JStr []) fs) as [| | |e| |] eqn:E;
    try discriminate.
  intros _. now exists fs, e.
Qed.

Lemma py_iter_length (cs : json) (n : nat) (items : list json) :
  py_len cs = Ok n -> py_iter cs = Ok items -> List.length items = n.
Proof.
  destruct cs; simpl; try discriminate; intros Hn Hi;
    inversion Hn; inversion Hi; subst; now rewrite ?length_map.
Qed.

Lemma py_len_iter (cs : json) (n : nat) :
  py_len cs = Ok n -> exists items, py_iter cs = Ok items.
Proof.
  destruct cs; simpl; try discriminate; intros _; eauto.
Qed.

Section RunnerFacts.

Variable timeout_t : Type.
Variable timeout_str : timeout_t -> str.
Variable path_exists : str -> bool.
Variable json_load : str -> outcome json.
Variable child : str -> nat -> json -> timeout_t -> child_event.

Implicit Types (self : TestRunner timeout_t) (s : state) (fs : list (str * json)).

#[local] Abbreviation try_block' := (try_block timeout_str child).
#[local] Abbreviation run_single_test' := (run_single_test timeout_str child).
#[local] Abbreviation loop_body' := (loop_body timeout_str child).
#[local] Abbreviation for_each' := (for_each timeout_str child).
#[local] Abbreviation run_all_tests' := (run_all_tests timeout_str json_load child).
#[local] Abbreviation timeout_message' := (timeout_message timeout_str).
#[local] Abbreviation main' := (main timeout_str path_exists json_load child).

(** ** The [try] block, event by event *)

Lemma filter_others_cons (pid : nat) (l : list nat) :
  List.filter (fun p => negb (Nat.eqb p pid)) (pid :: l)
  = List.filter (fun p => negb (Nat.eqb p pid)) l.
Proof.
  simpl. now rewrite Nat.eqb_refl.
Qed.

Lemma try_block_eq self (inp : json) (e : str) s :
  try_block' self inp e s =
  match child (binary_path self) (spawned s) inp (timeout self) with
  | SpawnFails msg =>
      (Ok (false, None, Some (py "Error: " ++ msg)), after_spawn s)
  | Exits out _ _ =>
      (Ok (if eqb (strip out) e
           then (true, Some (strip out), None)
           else (false, Some (strip out), Some (py "Output mismatch"))),
       after_spawn s)
  | Overruns =>
      (Ok (false, None, Some (timeout_message' self)),
       mkState (results s) (S (spawned s))
               (List.filter (fun p => negb (Nat.eqb p (spawned s))) (running s))
               (console s))
  | CommFails msg alive =>
      (Ok (false, None, Some (py "Error: " ++ msg)),
       mkState (results s) (S (spawned s))
               (if alive then spawned s :: running s else running s)
               (console s))
  end.
Proof.
  unfold try_block, bind, next_pid. cbn [spawned results running console].
  destruct (child _ _ _ _) as [msg|out err rc| |msg alive].
  - reflexivity.
  - cbv zeta. now destruct (eqb (strip out) e).
  - unfold proc_started, kill, proc_gone, ret, timeout_message.
    cbn [spawned results running console]. now rewrite filter_others_cons.
  - destruct alive; reflexivity.
Qed.

(** The [try] statement always returns a triple: nothing raised
    inside it leaves it. *)
Lemma try_block_returns self (inp : json) (e : str) s :
  exists r s1,
    try_block' self inp e s = (Ok r, s1)
    /\ results s1 = results s
    /\ spawned s1 = S (spawned s)
    /\ console s1 = console s.
Proof.
  rewrite try_block_eq.
  destruct (child _ _ _ _) as [msg|out err rc| |msg alive];
    eexists; eexists; (split; [reflexivity|]); now cbn.
Qed.

Lemma run_single_test_obj self fs (e : str) s :
  method_strip (field (py "expected") (JStr []) fs) = Ok e ->
  run_single_test' self (JObj fs) s
  = try_block' self (field (py "input") (JStr []) fs) e s.
Proof.
  intros He. unfold run_single_test, bind, lift.
  rewrite !dict_get_obj, He. reflexivity.
Qed.

(** ** Printing *)

Lemma printed_nil s : printed s [] = s.
Proof.
  destruct s. unfold printed. cbn. now rewrite app_nil_r.
Qed.

Lemma printed_app s (l1 l2 : list out_line) :
  printed (printed s l1) l2 = printed s (l1 ++ l2).
Proof.
  unfold printed. cbn. now rewrite app_assoc.
Qed.

Lemma print_eq (l : out_line) s : print l s = (Ok tt, printed s [l]).
Proof. reflexivity. Qed.

Lemma print_failure_details_eq (f : failure_info) s :
  print_failure_details f s = (Ok tt, printed s (detail_lines f)).
Proof.
  unfold print_failure_details, detail_lines, bind.
  rewrite !print_eq.
  destruct (f_actual f) as [a|]; destruct (f_error f) as [e|];
    try destruct (truthy e); unfold ret; rewrite ?print_eq, ?printed_app;
    reflexivity.
Qed.

Lemma print_item_eq (f : failure_info) s :
  print_item f s = (Ok tt, printed s (item_lines f)).
Proof.
  unfold print_item, item_lines, bind.
  rewrite !print_eq.
  destruct (f_actual f) as [a|]; destruct (f_error f) as [e|];
    try destruct (truthy e); unfold ret; rewrite ?print_eq, ?printed_app,
      ?app_nil_r; reflexivity.
Qed.

Lemma print_items_eq (l : list failure_info) s :
  print_items l s = (Ok tt, printed s (flat_map item_lines l)).
Proof.
  revert s; induction l as [|f l IH]; intros s; simpl.
  - unfold ret. now rewrite printed_nil.
  - unfold bind. rewrite print_item_eq, IH, printed_app. reflexivity.
Qed.

(** ** One iteration of the loop *)

Lemma loop_body_obj self (n i : nat) fs (e : str) s :
  method_strip (field (py "expected") (JStr []) fs) = Ok e ->
  loop_body' self n i (JObj fs) s =
  let name := field (py "name") (positional_label i) fs in
  let inp := field (py "input") (JStr []) fs in
  let exp := field (py "expected") (JStr []) fs in
  match try_block' self inp e (printed s [PrCase i n name]) with
  | (Ok r, s1) => (Ok tt, settle self name inp exp r s1)
  | (Raise x, s1) => (Raise x, s1)
  end.
Proof.
  intros He. cbv zeta. unfold loop_body.
  unfold bind at 1. unfold lift at 1. rewrite dict_get_obj.
  unfold bind at 1. rewrite print_eq.
  unfold bind at 1. rewrite run_single_test_obj with (e := e) by exact He.
  fold (positional_label i).
  destruct (try_block' _ _ _ _) as [[[[p a] err]|x] s1]; [|reflexivity].
  unfold settle, bind, get_results, set_results, lift.
  cbn [results spawned running console passed failed total failures].
  destruct p.
  - rewrite print_eq. reflexivity.
  - rewrite print_eq, !dict_get_obj.
    cbn [results spawned running console passed failed total failures printed].
    destruct (is_verbose self).
    + rewrite print_failure_details_eq. unfold printed, count_fail. cbn.
      now rewrite <- app_assoc.
    + unfold ret, count_fail. now rewrite app_nil_r.
Qed.

Lemma loop_body_ok_inv self (n i : nat) (tc : json) s s' :
  loop_body' self n i tc s = (Ok tt, s') ->
  exists fs e r s1,
    tc = JObj fs
    /\ method_strip (field (py "expected") (JStr []) fs) = Ok e
    /\ try_block' self (field (py "input") (JStr []) fs) e
                  (printed s [PrCase i n (field (py "name") (positional_label i) fs)])
       = (Ok r, s1)
    /\ s' = settle self (field (py "name") (positional_label i) fs)
                   (field (py "input") (JStr []) fs)
                   (field (py "expected") (JStr []) fs) r s1.
Proof.
  destruct tc as [| | | | |fs]; try (cbv; discriminate).
  destruct (method_strip (field (py "expected") (JStr []) fs)) as [e|x] eqn:He.
  - rewrite loop_body_obj with (e := e) by exact He. cbv zeta.
    destruct (try_block' _ _ _ _) as [[r|x] s1] eqn:Et; [|discriminate].
    intros H. inversion H; subst. exists fs, e, r, s1. auto.
  - unfold loop_body, run_single_test, bind, lift.
    rewrite !dict_get_obj, print_eq, He. discriminate.
Qed.

Lemma results_settle self (name inp exp : json) (p : bool)
    (a err : option str) s1 :
  results (settle self name inp exp (p, a, err) s1)
  = if p then count_pass (results s1)
    else count_fail (results s1) (mkFailure name inp exp a err).
Proof.
  unfold settle. now destruct p.
Qed.

Lemma spawned_settle self (name inp exp : json)
    (r : bool * option str * option str) s1 :
  spawned (settle self name inp exp r s1) = spawned s1.
Proof.
  destruct r as [[p a] err]. unfold settle. now destruct p.
Qed.

(** The verdict of the [try] block depends on the state only through
    the number of children spawned so far. *)
Lemma try_block_verdict self (inp : json) (e : str) s s2 :
  spawned s = spawned s2 ->
  fst (try_block' self inp e s) = fst (try_block' self inp e s2).
Proof.
  intros E. rewrite !try_block_eq, E.
  now destruct (child _ _ _ _).
Qed.

(** ** The whole loop *)

Lemma for_each_inv self (n : nat) (items : list json) :
  forall (i : nat) s s',
    for_each' self n i items s = (Ok tt, s') ->
    results s' =
      mkResults
        (passed (results s) + (List.length items
           - List.length (records_from timeout_str child self i (spawned s) items)))
        (failed (results s)
           + List.length (records_from timeout_str child self i (spawned s) items))
        (total (results s) + List.length items)
        (failures (results s)
           ++ records_from timeout_str child self i (spawned s) items)
    /\ spawned s' = spawned s + List.length items
    /\ List.length (records_from timeout_str child self i (spawned s) items)
       <= List.length items.
Proof.
  induction items as [|tc rest IH]; intros i s s' H.
  - simpl in H. inversion H; subst. simpl.
    rewrite !Nat.add_0_r, app_nil_r. destruct (results s'). auto.
  - simpl in H. unfold bind in H.
    destruct (loop_body' self n i tc s) as [[[]|x] s1] eqn:Eb; [|discriminate].
    apply loop_body_ok_inv in Eb as (fs & e & r & s0 & -> & He & Et & ->).
    destruct (try_block_returns self (field (py "input") (JStr []) fs) e
                (printed s [PrCase i n (field (py "name") (positional_label i) fs)]))
      as (r' & s0' & Et' & Hres & Hsp & _).
    rewrite Et in Et'. inversion Et'; subst r' s0'. clear Et'.
    cbn [printed results spawned] in Hres, Hsp.
    apply IH in H as (Hr & Hs & Hl).
    rewrite spawned_settle, Hsp in Hr, Hs, Hl.
    destruct r as [[p a] err]. rewrite results_settle, Hres in Hr.
    (* the record of this case, as [record_of] computes it *)
    assert (Hrec : record_of timeout_str child self i (spawned s) (JObj fs)
                   = if p then []
                     else [mkFailure (field (py "name") (positional_label i) fs)
                                     (field (py "input") (JStr []) fs)
                                     (field (py "expected") (JStr []) fs) a err]).
    { unfold record_of. rewrite run_single_test_obj with (e := e) by exact He.
      rewrite try_block_verdict
        with (s2 := printed s [PrCase i n (field (py "name") (positional_label i) fs)])
        by reflexivity.
      rewrite Et. cbn [fst]. now destruct p. }
    cbn [records_from List.length]. rewrite Hrec.
    set (tl := records_from timeout_str child self (S i) (S (spawned s)) rest) in *.
    destruct p; cbn [app List.length count_pass count_fail passed failed total failures] in *.
    + rewrite Hr. repeat split; [f_equal; lia | lia | lia].
    + rewrite Hr, <- app_assoc. repeat split; [f_equal; lia | lia | lia].
Qed.

Lemma for_each_well_shaped self (n : nat) (items : list json) :
  forall (i : nat) s,
    forallb well_shaped items = true ->
    exists s', for_each' self n i items s = (Ok tt, s').
Proof.
  induction items as [|tc rest IH]; intros i s Hw.
  - eexists. reflexivity.
  - simpl in Hw. apply andb_true_iff in Hw as [Htc Hrest].
    apply well_shaped_inv in Htc as (fs & e & -> & He).
    simpl. unfold bind.
    rewrite loop_body_obj with (e := strip e)
      by (rewrite He; reflexivity).
    cbv zeta.
    destruct (try_block_returns self (field (py "input") (JStr []) fs) (strip e)
                (printed s [PrCase i n (field (py "name") (positional_label i) fs)]))
      as (r & s1 & -> & _).
    now apply IH.
Qed.

Lemma run_single_test_obj_raise self fs (x : exn) s :
  method_strip (field (py "expected") (JStr []) fs) = Raise x ->
  run_single_test' self (JObj fs) s = (Raise x, s).
Proof.
  intros He. unfold run_single_test, bind, lift.
  rewrite !dict_get_obj, He. reflexivity.
Qed.

Lemma loop_body_obj_raise self (n i : nat) fs (x : exn) s :
  method_strip (field (py "expected") (JStr []) fs) = Raise x ->
  loop_body' self n i (JObj fs) s
  = (Raise x, printed s [PrCase i n (field (py "name") (positional_label i) fs)]).
Proof.
  intros He. unfold loop_body.
  unfold bind at 1. unfold lift at 1. rewrite dict_get_obj.
  unfold bind at 1. rewrite print_eq.
  unfold bind at 1. rewrite run_single_test_obj_raise with (x := x) by exact He.
  reflexivity.
Qed.

(** An iteration reads its case only through the three [get] calls. *)
Lemma loop_body_fields self (n i : nat) fs fs' s :
  field (py "name") (positional_label i) fs
  = field (py "name") (positional_label i) fs' ->
  field (py "input") (JStr []) fs = field (py "input") (JStr []) fs' ->
  field (py "expected") (JStr []) fs = field (py "expected") (JStr []) fs' ->
  loop_body' self n i (JObj fs) s = loop_body' self n i (JObj fs') s.
Proof.
  intros Hn Hi He.
  destruct (method_strip (field (py "expected") (JStr []) fs)) as [e|x] eqn:E.
  - rewrite (loop_body_obj self n i fs e s E).
    rewrite He in E. rewrite (loop_body_obj self n i fs' e s E).
    cbv zeta. now rewrite Hn, Hi, He.
  - rewrite (loop_body_obj_raise self n i fs x s E).
    rewrite He in E. rewrite (loop_body_obj_raise self n i fs' x s E).
    now rewrite Hn.
Qed.

(** ** [run_all_tests], [print_summary], [main] *)

Lemma run_all_tests_eq self (tests cs : json) (n : nat) (items : list json) s :
  json_load (tests_file self) = Ok tests ->
  subscript tests (py "test_cases") = Ok cs ->
  py_len cs = Ok n ->
  py_iter cs = Ok items ->
  run_all_tests' self s = for_each' self n 1 items (printed s [PrRunning n]).
Proof.
  intros Hl Hs Hn Hi. unfold run_all_tests, load_tests, bind, lift.
  rewrite Hl, Hs, Hn, print_eq, Hi. reflexivity.
Qed.

Lemma run_all_tests_load_raise self (x : exn) s :
  json_load (tests_file self) = Raise x ->
  run_all_tests' self s = (Raise x, s).
Proof.
  intros Hl. unfold run_all_tests, load_tests, bind, lift. now rewrite Hl.
Qed.

Lemma print_summary_eq self s :
  print_summary self s
  = (Ok (status_of (results s)), printed s (summary_lines (results s))).
Proof.
  unfold print_summary, summary_lines, status_of, bind, get_results.
  rewrite !print_eq.
  destruct (0 <? failed (results s)).
  - rewrite !print_eq, print_items_eq, print_eq. unfold ret.
    rewrite !printed_app. reflexivity.
  - unfold ret. rewrite print_eq, !printed_app. reflexivity.
Qed.

Lemma init_eq (binary tests : str) (t : timeout_t) s :
  __init__ path_exists binary tests t s =
  if negb (path_exists binary)
  then (Raise (FileNotFoundError
                 (py "Binary not found: " ++ PyPath.path_str binary)), reset s)
  else if negb (path_exists tests)
  then (Raise (FileNotFoundError
                 (py "Tests file not found: " ++ PyPath.path_str tests)), reset s)
  else (Ok (mkRunner binary tests t None), reset s).
Proof.
  unfold __init__, bind, set_results, reset.
  destruct (negb (path_exists binary)); [reflexivity|].
  destruct (negb (path_exists tests)); reflexivity.
Qed.

Lemma main_started (args : args_t timeout_t) s :
  path_exists (arg_binary args) = true ->
  path_exists (arg_tests args) = true ->
  main' args s =
  match run_all_tests' (runner_of args) (reset s) with
  | (Ok _, s1) => (status_of (results s1), printed s1 (summary_lines (results s1)))
  | (Raise x, s1) => (1%Z, printed s1 [PrFatal x])
  end.
Proof.
  intros Hb Ht. unfold main, main_try. unfold bind at 1.
  rewrite init_eq, Hb, Ht. cbn [negb binary_path tests_file timeout].
  fold (runner_of args). unfold bind.
  destruct (run_all_tests' (runner_of args) (reset s)) as [[[]|x] s1].
  - rewrite print_summary_eq. reflexivity.
  - now rewrite print_eq.
Qed.

(** A suite that is a list of cases of the documented shape is run to
    the end. *)
Lemma run_all_tests_well_shaped self (tests : json) (items : list json) s :
  json_load (tests_file self) = Ok tests ->
  subscript tests (py "test_cases") = Ok (JArr items) ->
  forallb well_shaped items = true ->
  exists s', run_all_tests' self s = (Ok tt, s').
Proof.
  intros Hl Hs Hw.
  rewrite (run_all_tests_eq self tests (JArr items) (List.length items) items s
             Hl Hs eq_refl eq_refl).
  now apply for_each_well_shaped.
Qed.

(** ** The evaluator *)

(** C1, as amended.  When the child runs to completion with standard
    output [actualRaw] and the case expects the string [expectedRaw],
    [run_single_test] removes the white space at BOTH ends of both
    strings ([str.strip]) and compares the results by exact equality:
    the case passes exactly when the stripped strings are equal, and is
    an "Output mismatch" carrying the stripped output otherwise.  In
    particular an output that is the expected string with white space
    added in front of it or behind it passes. *)
Theorem C1_evaluator_strips_both_ends self fs s
    (actualRaw expectedRaw err : str) (rc : Z) :
  field (py "expected") (JStr []) fs = JStr expectedRaw ->
  child (binary_path self) (spawned s) (field (py "input") (JStr []) fs)
        (timeout self) = Exits actualRaw err rc ->
  (strip actualRaw = strip expectedRaw ->
   run_single_test' self (JObj fs) s
   = (Ok (true, Some (strip actualRaw), None), after_spawn s))
  /\ (strip actualRaw <> strip expectedRaw ->
      run_single_test' self (JObj fs) s
      = (Ok (false, Some (strip actualRaw), Some (py "Output mismatch")),
         after_spawn s))
  /\ (forall l r : str,
        forallb isspace l = true -> forallb isspace r = true ->
        actualRaw = l ++ expectedRaw ++ r ->
        run_single_test' self (JObj fs) s
        = (Ok (true, Some (strip expectedRaw), None), after_spawn s)).
Proof.
  intros He Hc.
  assert (Hs : method_strip (field (py "expected") (JStr []) fs)
               = Ok (strip expectedRaw)) by (now rewrite He).
  rewrite (run_single_test_obj self fs (strip expectedRaw) s Hs).
  rewrite try_block_eq, Hc.
  split; [|split].
  - intros H. apply str_eqb_eq in H. now rewrite H.
  - intros H. apply str_eqb_neq in H. now rewrite H.
  - intros l r Hl Hr ->. rewrite (strip_pad l expectedRaw r Hl Hr).
    now rewrite str_eqb_refl.
Qed.

(** ** Exceptions *)


(** ** Timeouts *)


(** ** The tally *)

(** C2.  When [run_all_tests] returns on a fresh tally, the number of
    passed cases plus the number of failed cases is [total], [total] is
    the number of cases of the suite, and the list of failures has
    [failed] entries; on an empty suite the tally is still all zeros. *)
Theorem C2_tally_invariant self (tests cs : json) (n : nat) s s' :
  json_load (tests_file self) = Ok tests ->
  subscript tests (py "test_cases") = Ok cs ->
  py_len cs = Ok n ->
  results s = no_results ->
  run_all_tests' self s = (Ok tt, s') ->
  passed (results s') + failed (results s') = total (results s')
  /\ total (results s') = n
  /\ List.length (failures (results s')) = failed (results s')
  /\ (n = 0 -> results s' = no_results).
Proof.
  intros Hl Hs Hn Hfresh Hrun.
  destruct (py_len_iter cs n Hn) as [items Hi].
  pose proof (py_iter_length cs n items Hn Hi) as Hlen.
  rewrite (run_all_tests_eq self tests cs n items s Hl Hs Hn Hi) in Hrun.
  apply for_each_inv in Hrun as (Hr & _ & Hle).
  cbn [printed results spawned] in Hr, Hle. rewrite Hfresh in Hr.
  rewrite Hr. cbn [passed failed total failures no_results app Nat.add].
  rewrite Hlen in *. repeat split; try lia.
  intros ->. destruct items; [reflexivity|discriminate].
Qed.

(** C6.  When [run_all_tests] returns on a fresh tally, the list of
    failures is the list of the records of the cases that did not
    pass, in suite order: each case contributes its record or nothing,
    by position, whatever its name. *)
Theorem C6_failures_in_suite_order self (tests cs : json) (n : nat)
    (items : list json) s s' :
  json_load (tests_file self) = Ok tests ->
  subscript tests (py "test_cases") = Ok cs ->
  py_len cs = Ok n ->
  py_iter cs = Ok items ->
  results s = no_results ->
  run_all_tests' self s = (Ok tt, s') ->
  failures (results s')
  = records_from timeout_str child self 1 (spawned s) items.
Proof.
  intros Hl Hs Hn Hi Hfresh Hrun.
  rewrite (run_all_tests_eq self tests cs n items s Hl Hs Hn Hi) in Hrun.
  apply for_each_inv in Hrun as (Hr & _ & _).
  cbn [printed results spawned] in Hr. rewrite Hfresh in Hr.
  rewrite Hr. reflexivity.
Qed.

(** ** Failure records *)

Lemma in_detail_lines_actual (f : failure_info) (a : str) :
  In (PrDetailsActual a) (detail_lines f) <-> f_actual f = Some a.
Proof.
  unfold detail_lines.
  destruct (f_actual f) as [a'|]; destruct (f_error f) as [e|];
    try destruct (truthy e); cbn; split; intros H;
    repeat match goal with
           | H : _ \/ _ |- _ => destruct H
           | H : False |- _ => destruct H
           end;
    try discriminate; try congruence.
  all: inversion H; subst; auto.
Qed.

Lemma in_item_lines_actual (f : failure_info) (a : str) :
  In (PrItemActual a) (item_lines f) <-> f_actual f = Some a.
Proof.
  unfold item_lines.
  destruct (f_actual f) as [a'|]; destruct (f_error f) as [e|];
    try destruct (truthy e); cbn; split; intros H;
    repeat match goal with
           | H : _ \/ _ |- _ => destruct H
           | H : False |- _ => destruct H
           end;
    try discriminate; try congruence.
  all: inversion H; subst; auto.
Qed.

(** C9.  The record that an iteration appends has no [actual] exactly
    when the child timed out or an exception was caught, and has the
    stripped standard output as [actual] exactly when the child ran to
    completion with a different output; a passing case appends
    nothing.  The verbose detail and the summary entry of a record
    contain an Actual line exactly when [actual] is present. *)
Theorem C9_actual_present_iff_mismatch self (n i : nat) fs s s' (e : str) :
  method_strip (field (py "expected") (JStr []) fs) = Ok e ->
  loop_body' self n i (JObj fs) s = (Ok tt, s') ->
  match child (binary_path self) (spawned s)
              (field (py "input") (JStr []) fs) (timeout self) with
  | Exits out _ _ =>
      if eqb (strip out) e
      then failures (results s') = failures (results s)
      else exists f,
          failures (results s') = failures (results s) ++ [f]
          /\ f_actual f = Some (strip out)
          /\ f_error f = Some (py "Output mismatch")
  | Overruns =>
      exists f,
        failures (results s') = failures (results s) ++ [f]
        /\ f_actual f = None
        /\ f_error f = Some (timeout_message' self)
  | SpawnFails msg | CommFails msg _ =>
      exists f,
        failures (results s') = failures (results s) ++ [f]
        /\ f_actual f = None
        /\ f_error f = Some (py "Error: " ++ msg)
  end
  /\ (forall (f : failure_info) s0,
        exists ls,
          print_failure_details f s0 = (Ok tt, printed s0 ls)
          /\ forall a, In (PrDetailsActual a) ls <-> f_actual f = Some a)
  /\ (forall (f : failure_info) s0,
        exists ls,
          print_item f s0 = (Ok tt, printed s0 ls)
          /\ forall a, In (PrItemActual a) ls <-> f_actual f = Some a)
  /\ (forall s0,
        snd (print_summary self s0)
        = printed s0
            ([PrRule; PrTotal (total (results s0));
              PrPassedCount (passed (results s0));
              PrFailedCount (failed (results s0))]
             ++ (if 0 <? failed (results s0)
                 then PrFailedTests :: flat_map item_lines (failures (results s0))
                 else [])
             ++ [PrRule])).
Proof.
  intros He Hrun. repeat split.
  - rewrite (loop_body_obj self n i fs e s He) in Hrun. cbv zeta in Hrun.
    rewrite try_block_eq in Hrun. cbn [printed spawned] in Hrun.
    destruct (child _ _ _ _) as [msg|out err rc| |msg alive];
      try destruct (eqb (strip out) e);
      inversion Hrun; subst s'; unfold settle; cbn;
      try reflexivity; eexists; (split; [reflexivity|]); cbn; auto.
  - intros f s0. exists (detail_lines f). split.
    + apply print_failure_details_eq.
    + intros a. apply in_detail_lines_actual.
  - intros f s0. exists (item_lines f). split.
    + apply print_item_eq.
    + intros a. apply in_item_lines_actual.
  - intros s0. rewrite print_summary_eq. reflexivity.
Qed.

(** The record of a case that did not pass. *)
Lemma failed_case_record self (n i : nat) fs s s' :
  loop_body' self n i (JObj fs) s = (Ok tt, s') ->
  failed (results s') <> failed (results s) ->
  exists (a err : option str) (e : str),
    failures (results s')
    = failures (results s)
      ++ [mkFailure (field (py "name") (positional_label i) fs)
                    (field (py "input") (JStr []) fs)
                    (field (py "expected") (JStr []) fs) a err]
    /\ method_strip (field (py "expected") (JStr []) fs) = Ok e
    /\ fst (run_single_test' self (JObj fs) s) = Ok (false, a, err)
    /\ (a = None \/ exists out, a = Some (strip out) /\ strip out <> e).
Proof.
  intros Hrun Hfail.
  apply loop_body_ok_inv in Hrun
    as (fs0 & e & [[p a] err] & s1 & Heq & He & Et & ->).
  inversion Heq; subst fs0. clear Heq.
  rewrite results_settle in *.
  destruct (try_block_returns self (field (py "input") (JStr []) fs) e
              (printed s [PrCase i n (field (py "name") (positional_label i) fs)]))
    as (r' & s1' & Et' & Hres & _).
  rewrite Et in Et'. inversion Et'; subst r' s1'. clear Et'.
  cbn [printed results] in Hres. rewrite Hres in *.
  destruct p; cbn [count_pass count_fail failed failures] in *.
  - exfalso. apply Hfail. reflexivity.
  - exists a, err, e. split; [reflexivity|]. split; [exact He|].
    rewrite (run_single_test_obj self fs e s He).
    rewrite (try_block_verdict self _ e s
               (printed s [PrCase i n (field (py "name") (positional_label i) fs)])
               eq_refl), Et.
    split; [reflexivity|].
    rewrite try_block_eq in Et. cbn [printed spawned] in Et.
    destruct (child _ _ _ _) as [msg|out err0 rc| |msg alive];
      try (inversion Et; subst; now left).
    destruct (eqb (strip out) e) eqn:Eq; inversion Et; subst.
    right. exists out. split; [reflexivity|]. now apply str_eqb_neq.
Qed.

(** C10.  The record appended for a case that did not pass stores, as
    [input] and [expected], the very values that [get] finds in the
    case (the empty string when the key is absent), not their stripped
    forms, although the comparison is made on stripped strings. *)
Theorem C10_record_keeps_raw_fields self (n i : nat) fs s s' :
  loop_body' self n i (JObj fs) s = (Ok tt, s') ->
  failed (results s') <> failed (results s) ->
  exists (a err : option str) (e : str),
    failures (results s')
    = failures (results s)
      ++ [mkFailure (field (py "name") (positional_label i) fs)
                    (field (py "input") (JStr []) fs)
                    (field (py "expected") (JStr []) fs) a err]
    /\ method_strip (field (py "expected") (JStr []) fs) = Ok e
    /\ fst (run_single_test' self (JObj fs) s) = Ok (false, a, err)
    /\ (a = None \/ exists out, a = Some (strip out) /\ strip out <> e).
Proof.
  exact (failed_case_record self n i fs s s').
Qed.

(** ** Defaults *)

Lemma field_cons_same (k : str) (d v : json) fs :
  field k d ((k, v) :: fs) = v.
Proof.
  unfold field. cbn [lookup]. now rewrite str_eqb_refl.
Qed.

Lemma field_cons_other (k k' : str) (d v : json) fs :
  eqb k k' = false -> field k d ((k', v) :: fs) = field k d fs.
Proof.
  intros H. unfold field. cbn [lookup]. now rewrite H.
Qed.

Lemma field_absent (k : str) (d : json) fs :
  lookup k fs = None -> field k d fs = d.
Proof.
  intros H. unfold field. now rewrite H.
Qed.

(** ** The exit status *)

Lemma main_not_started (args : args_t timeout_t) s :
  path_exists (arg_binary args) = false
  \/ path_exists (arg_tests args) = false ->
  exists x, main' args s = (1%Z, printed (reset s) [PrFatal x]).
Proof.
  intros H. unfold main, main_try. unfold bind at 1. rewrite init_eq.
  destruct (path_exists (arg_binary args)) eqn:Eb; cbn [negb].
  - destruct H as [H|H]; [discriminate|]. rewrite H. cbn [negb].
    rewrite print_eq. eauto.
  - rewrite print_eq. eauto.
Qed.

(** C3.  [print_summary] returns 0 when [failed] is 0 and 1 otherwise,
    and a run that gets through the suite exits with that status.  When
    the binary or the suite file does not exist, or the suite file
    cannot be loaded, [main] exits with status 1 without any [Popen]
    call and with an empty tally. *)
Theorem C3_exit_status (args : args_t timeout_t) s :
  (forall self s0,
     fst (print_summary self s0)
     = Ok (if failed (results s0) =? 0 then 0%Z else 1%Z))
  /\ (forall s1,
        path_exists (arg_binary args) = true ->
        path_exists (arg_tests args) = true ->
        run_all_tests' (runner_of args) (reset s) = (Ok tt, s1) ->
        fst (main' args s) = if failed (results s1) =? 0 then 0%Z else 1%Z)
  /\ (path_exists (arg_binary args) = false
      \/ path_exists (arg_tests args) = false
      \/ (exists x, json_load (arg_tests args) = Raise x) ->
      fst (main' args s) = 1%Z
      /\ spawned (snd (main' args s)) = spawned s
      /\ running (snd (main' args s)) = running s
      /\ results (snd (main' args s)) = no_results).
Proof.
  split; [|split].
  - intros self s0. now rewrite print_summary_eq.
  - intros s1 Hb Ht Hrun. rewrite (main_started args s Hb Ht), Hrun.
    reflexivity.
  - intros H.
    assert (Hcases :
              (path_exists (arg_binary args) = false
               \/ path_exists (arg_tests args) = false)
              \/ (path_exists (arg_binary args) = true
                  /\ path_exists (arg_tests args) = true
                  /\ exists x, json_load (arg_tests args) = Raise x)).
    { destruct (path_exists (arg_binary args)); [|now left; left].
      destruct (path_exists (arg_tests args)); [|now left; right].
      destruct H as [H|[H|H]]; try discriminate. right. auto. }
    destruct Hcases as [Hmiss|(Hb & Ht & x & Hx)].
    + destruct (main_not_started args s Hmiss) as [x ->]. now cbn.
    + rewrite (main_started args s Hb Ht).
      rewrite (run_all_tests_load_raise (runner_of args) x (reset s) Hx).
      now cbn.
Qed.

End RunnerFacts.

(** ** Standard error and the exit status of the child *)

(** Two children that run to completion on the input of a case with
    the same standard output, whatever their standard error and exit
    status, get the same verdict from [run_single_test] and leave the
    same state; so does the whole iteration, record included. *)
Lemma same_stdout_same_iteration (timeout_t : Type)
    (timeout_str : timeout_t -> str)
    (child1 child2 : str -> nat -> json -> timeout_t -> child_event)
    (self : TestRunner timeout_t) (n i : nat) (tc : json) (s : state)
    (out err1 err2 : str) (rc1 rc2 : Z) :
  (forall inp, dict_get tc (py "input") (JStr []) = Ok inp ->
     child1 (binary_path self) (spawned s) inp (timeout self)
     = Exits out err1 rc1) ->
  (forall inp, dict_get tc (py "input") (JStr []) = Ok inp ->
     child2 (binary_path self) (spawned s) inp (timeout self)
     = Exits out err2 rc2) ->
  run_single_test timeout_str child1 self tc s
  = run_single_test timeout_str child2 self tc s
  /\ loop_body timeout_str child1 self n i tc s
     = loop_body timeout_str child2 self n i tc s.
Proof.
  intros H1 H2.
  destruct tc as [| | | | |fs]; try (split; reflexivity).
  specialize (H1 _ (dict_get_obj fs _ _)).
  specialize (H2 _ (dict_get_obj fs _ _)).
  destruct (method_strip (field (py "expected") (JStr []) fs)) as [e|x] eqn:He.
  - split.
    + rewrite !(run_single_test_obj _ _ _ self fs e s He).
      now rewrite !try_block_eq, H1, H2.
    + rewrite !(loop_body_obj _ _ _ self n i fs e s He). cbv zeta.
      rewrite !try_block_eq. cbn [printed spawned]. now rewrite H1, H2.
  - split.
    + now rewrite !(run_single_test_obj_raise _ _ _ self fs x s He).
    + now rewrite !(loop_body_obj_raise _ _ _ self n i fs x s He).
Qed.


(** Two children with the same event on the input of a case are not
    told apart. *)
Lemma same_event_same_iteration (timeout_t : Type)
    (timeout_str : timeout_t -> str)
    (child1 child2 : str -> nat -> json -> timeout_t -> child_event)
    (self : TestRunner timeout_t) (n i : nat) (tc : json) (s : state) :
  (forall inp, dict_get tc (py "input") (JStr []) = Ok inp ->
     child1 (binary_path self) (spawned s) inp (timeout self)
     = child2 (binary_path self) (spawned s) inp (timeout self)) ->
  run_single_test timeout_str child1 self tc s
  = run_single_test timeout_str child2 self tc s
  /\ loop_body timeout_str child1 self n i tc s
     = loop_body timeout_str child2 self n i tc s.
Proof.
  intros H.
  destruct tc as [| | | | |fs]; try (split; reflexivity).
  specialize (H _ (dict_get_obj fs _ _)).
  destruct (method_strip (field (py "expected") (JStr []) fs)) as [e|x] eqn:He.
  - split.
    + rewrite !(run_single_test_obj _ _ _ self fs e s He).
      now rewrite !try_block_eq, H.
    + rewrite !(loop_body_obj _ _ _ self n i fs e s He). cbv zeta.
      rewrite !try_block_eq. cbn [printed spawned]. now rewrite H.
  - split.
    + now rewrite !(run_single_test_obj_raise _ _ _ self fs x s He).
    + now rewrite !(loop_body_obj_raise _ _ _ self n i fs x s He).
Qed.

(** C7, as amended.  Of two binaries that run to completion on the
    input of a case and write the same bytes on their standard output,
    the runner (which reads both streams in text mode) makes the same
    verdict and the same record, whatever they write on their standard
    error and whatever their exit status, provided what they write on
    their standard error can be decoded: the text of the standard
    error and the exit status are never looked at. *)
Theorem C7_verdict_depends_on_stdout_only (timeout_t : Type)
    (timeout_str : timeout_t -> str)
    (decode : list N -> TextMode.decoded)
    (raw1 raw2 : str -> nat -> json -> timeout_t -> TextMode.raw_event)
    (self : TestRunner timeout_t) (n i : nat) (tc : json) (s : state)
    (out err1 err2 : list N) (rc1 rc2 : Z) (e1 e2 : str) :
  (forall inp, dict_get tc (py "input") (JStr []) = Ok inp ->
     raw1 (binary_path self) (spawned s) inp (timeout self)
     = TextMode.RawExits out err1 rc1) ->
  (forall inp, dict_get tc (py "input") (JStr []) = Ok inp ->
     raw2 (binary_path self) (spawned s) inp (timeout self)
     = TextMode.RawExits out err2 rc2) ->
  decode err1 = TextMode.Decoded e1 ->
  decode err2 = TextMode.Decoded e2 ->
  run_single_test timeout_str (TextMode.text_child decode raw1) self tc s
  = run_single_test timeout_str (TextMode.text_child decode raw2) self tc s
  /\ loop_body timeout_str (TextMode.text_child decode raw1) self n i tc s
     = loop_body timeout_str (TextMode.text_child decode raw2) self n i tc s.
Proof.
  intros H1 H2 Hd1 Hd2.
  destruct (decode out) as [o|msg] eqn:Ho.
  - apply (same_stdout_same_iteration timeout_t timeout_str _ _ self n i tc s
             (TextMode.translate_newlines o)
             (TextMode.translate_newlines e1)
             (TextMode.translate_newlines e2) rc1 rc2);
      intros inp Hinp; unfold TextMode.text_child, TextMode.communicate_text.
    + now rewrite (H1 inp Hinp), Ho, Hd1.
    + now rewrite (H2 inp Hinp), Ho, Hd2.
  - apply same_event_same_iteration.
    intros inp Hinp. unfold TextMode.text_child, TextMode.communicate_text.
    now rewrite (H1 inp Hinp), (H2 inp Hinp), Ho.
Qed.

(** ** The claims on the concrete environment *)

(** C1 as stated does not hold: an output that differs from the
    expected string by a leading blank only (their right-stripped forms
    differ) passes. *)
Lemma C1_leading_blank_passes :
  rstrip (py " 42" ++ [10%N]) <> rstrip (py "42")
  /\ Demo.child (py "./echo") 0 (JStr (py " 42")) 5
     = Exits (py " 42" ++ [10%N]) [] 0
  /\ fst (run_single_test Demo.timeout_str Demo.child Demo.self
                          Demo.spaced_case boot)
     = Ok (true, Some (py "42"), None).
Proof.
  split; [|split].
  - intros H. vm_compute in H. discriminate.
  - vm_compute. reflexivity.
  - vm_compute. reflexivity.
Qed.

Lemma C1_witness :
  run_single_test Demo.timeout_str Demo.child Demo.self Demo.spaced_case boot
  = (Ok (true, Some (strip (py " 42" ++ [10%N])), None), after_spawn boot).
Proof.
  apply (proj1 (C1_evaluator_strips_both_ends nat Demo.timeout_str Demo.child
                  Demo.self
                  [(py "input", JStr (py " 42")); (py "expected", JStr (py "42"))]
                  boot (py " 42" ++ [10%N]) (py "42") [] 0%Z
                  eq_refl eq_refl)).
  vm_compute. reflexivity.
Defined.




Lemma C2_witness :
  (passed (results (snd (run_all_tests Demo.timeout_str Demo.json_load
                                       Demo.child Demo.self boot)))
   + failed (results (snd (run_all_tests Demo.timeout_str Demo.json_load
                                         Demo.child Demo.self boot)))
   = total (results (snd (run_all_tests Demo.timeout_str Demo.json_load
                                        Demo.child Demo.self boot)))
   /\ total (results (snd (run_all_tests Demo.timeout_str Demo.json_load
                                         Demo.child Demo.self boot))) = 5
   /\ List.length (failures (results (snd (run_all_tests Demo.timeout_str
                                             Demo.json_load Demo.child
                                             Demo.self boot))))
      = failed (results (snd (run_all_tests Demo.timeout_str Demo.json_load
                                            Demo.child Demo.self boot)))
   /\ (5 = 0 ->
       results (snd (run_all_tests Demo.timeout_str Demo.json_load
                                   Demo.child Demo.self boot)) = no_results))
  /\ (run_all_tests Demo.timeout_str Demo.json_load Demo.child
                    Demo.empty_self boot
      = (Ok tt, printed boot [PrRunning 0])
      /\ results (printed boot [PrRunning 0]) = no_results).
Proof.
  split.
  - apply (C2_tally_invariant nat Demo.timeout_str Demo.json_load Demo.child
             Demo.self Demo.suite (JArr Demo.cases) 5 boot
             (snd (run_all_tests Demo.timeout_str Demo.json_load Demo.child
                                 Demo.self boot))).
    + reflexivity.
    + reflexivity.
    + reflexivity.
    + reflexivity.
    + vm_compute. reflexivity.
  - split.
    + vm_compute. reflexivity.
    + exact (proj2 (proj2 (proj2
        (C2_tally_invariant nat Demo.timeout_str Demo.json_load Demo.child
           Demo.empty_self (JObj [(py "test_cases", JArr [])]) (JArr []) 0
           boot (printed boot [PrRunning 0])
           eq_refl eq_refl eq_refl eq_refl eq_refl))) eq_refl).
Defined.

Lemma C6_witness :
  failures (results (snd (run_all_tests Demo.timeout_str Demo.json_load
                                        Demo.child Demo.self boot)))
  = records_from Demo.timeout_str Demo.child Demo.self 1 0 Demo.cases.
Proof.
  apply (C6_failures_in_suite_order nat Demo.timeout_str Demo.json_load
           Demo.child Demo.self Demo.suite (JArr Demo.cases) 5 Demo.cases boot).
  - reflexivity.
  - reflexivity.
  - reflexivity.
  - reflexivity.
  - reflexivity.
  - vm_compute. reflexivity.
Defined.

(** On the suite of five cases where the first, third and fifth fail,
    the records are those three, in that order; the first and the fifth
    come from one and the same case and are both kept. *)
Example records_of_the_five_cases :
  records_from Demo.timeout_str Demo.child Demo.self 1 0 Demo.cases
  = [mkFailure (JStr (py "dup")) (JStr (py "a")) (JStr (py " b "))
               (Some (py "a")) (Some (py "Output mismatch"));
     mkFailure (JStr (py "dup")) (JStr (py "sleep")) (JStr [])
               None (Some (py "Timeout (5s)"));
     mkFailure (JStr (py "dup")) (JStr (py "a")) (JStr (py " b "))
               (Some (py "a")) (Some (py "Output mismatch"))].
Proof.
  vm_compute. reflexivity.
Qed.

Lemma C9_witness :
  exists f,
    failures (results (snd (loop_body Demo.timeout_str Demo.child Demo.self
                                      5 1 Demo.mismatch_case boot)))
    = [] ++ [f]
    /\ f_actual f = Some (strip (py "a" ++ [10%N]))
    /\ f_error f = Some (py "Output mismatch").
Proof.
  apply (proj1 (C9_actual_present_iff_mismatch nat Demo.timeout_str Demo.child
                  Demo.self 5 1
                  [(py "name", JStr (py "dup")); (py "input", JStr (py "a"));
                   (py "expected", JStr (py " b "))]
                  boot
                  (snd (loop_body Demo.timeout_str Demo.child Demo.self
                                  5 1 Demo.mismatch_case boot))
                  (py "b") eq_refl
                  ltac:(vm_compute; reflexivity))).
Defined.

Lemma C10_witness :
  exists (a err : option str) (e : str),
    failures (results (snd (loop_body Demo.timeout_str Demo.child Demo.self
                                      1 1 Demo.padded_case boot)))
    = [] ++ [mkFailure (JStr (py "padded")) (JStr (py "7")) (JStr (py " 8 "))
                       a err]
    /\ method_strip (JStr (py " 8 ")) = Ok e
    /\ fst (run_single_test Demo.timeout_str Demo.child Demo.self
                            Demo.padded_case boot) = Ok (false, a, err)
    /\ (a = None \/ exists out, a = Some (strip out) /\ strip out <> e).
Proof.
  apply (C10_record_keeps_raw_fields nat Demo.timeout_str Demo.child Demo.self
           1 1
           [(py "name", JStr (py "padded")); (py "input", JStr (py "7"));
            (py "expected", JStr (py " 8 "))]
           boot
           (snd (loop_body Demo.timeout_str Demo.child Demo.self
                           1 1 Demo.padded_case boot))).
  - vm_compute. reflexivity.
  - vm_compute. discriminate.
Defined.

Lemma C3_witness :
  fst (main Demo.timeout_str Demo.path_exists Demo.json_load Demo.child
            Demo.args boot) = 1%Z
  /\ (fst (main Demo.timeout_str Demo.path_exists Demo.json_load Demo.child
               Demo.lost_args boot) = 1%Z
      /\ spawned (snd (main Demo.timeout_str Demo.path_exists Demo.json_load
                            Demo.child Demo.lost_args boot)) = 0
      /\ running (snd (main Demo.timeout_str Demo.path_exists Demo.json_load
                            Demo.child Demo.lost_args boot)) = []
      /\ results (snd (main Demo.timeout_str Demo.path_exists Demo.json_load
                            Demo.child Demo.lost_args boot)) = no_results).
Proof.
  split.
  - apply (proj1 (proj2 (C3_exit_status nat Demo.timeout_str Demo.path_exists
                           Demo.json_load Demo.child Demo.args boot))
             (snd (run_all_tests Demo.timeout_str Demo.json_load Demo.child
                                 (runner_of Demo.args) (reset boot)))).
    + reflexivity.
    + reflexivity.
    + vm_compute. reflexivity.
  - apply (proj2 (proj2 (C3_exit_status nat Demo.timeout_str Demo.path_exists
                           Demo.json_load Demo.child Demo.lost_args boot))).
    left. reflexivity.
Defined.

(** C7 as stated does not hold: of two runs of a binary with the same
    standard output, the one whose standard error is no UTF-8 text is
    not a pass, because [communicate] decodes the standard error too
    and raises. *)
Lemma C7_undecodable_stderr_changes_the_verdict :
  Shapes.silent_raw (py "./echo") 0 (JStr []) 5
  = TextMode.RawExits [120%N; 10%N] [] 0
  /\ Shapes.garbled_raw (py "./echo") 0 (JStr []) 5
     = TextMode.RawExits [120%N; 10%N] [255%N; 254%N] 0
  /\ fst (run_single_test Demo.timeout_str
            (TextMode.text_child TextMode.utf8_decode Shapes.silent_raw)
            Demo.self Shapes.x_case boot)
     = Ok (true, Some (py "x"), None)
  /\ fst (run_single_test Demo.timeout_str
            (TextMode.text_child TextMode.utf8_decode Shapes.garbled_raw)
            Demo.self Shapes.x_case boot)
     = Ok (false, None,
           Some (py "Error: 'utf-8' codec can't decode byte 0xff in position 0: invalid start byte")).
Proof.
  repeat split; vm_compute; reflexivity.
Qed.

Lemma C7_witness :
  run_single_test Demo.timeout_str
    (TextMode.text_child TextMode.utf8_decode Shapes.silent_raw)
    Demo.self Shapes.x_case boot
  = run_single_test Demo.timeout_str
      (TextMode.text_child TextMode.utf8_decode Shapes.warning_raw)
      Demo.self Shapes.x_case boot
  /\ loop_body Demo.timeout_str
       (TextMode.text_child TextMode.utf8_decode Shapes.silent_raw)
       Demo.self 5 2 Shapes.x_case boot
     = loop_body Demo.timeout_str
         (TextMode.text_child TextMode.utf8_decode Shapes.warning_raw)
         Demo.self 5 2 Shapes.x_case boot.
Proof.
  apply (C7_verdict_depends_on_stdout_only nat Demo.timeout_str
           TextMode.utf8_decode Shapes.silent_raw Shapes.warning_raw
           Demo.self 5 2 Shapes.x_case boot
           [120%N; 10%N] [] (py "warning" ++ [13%N; 10%N]) 0%Z 3%Z
           [] (py "warning" ++ [13%N; 10%N])).
  - intros inp H. reflexivity.
  - intros inp H. reflexivity.
  - reflexivity.
  - vm_compute. reflexivity.
Defined.

(** * Properties of whole runs *)

Lemma filter_fresh (pid : nat) (l : list nat) :
  Forall (fun p => p < pid) l ->
  List.filter (fun p => negb (Nat.eqb p pid)) l = l.
Proof.
  induction 1 as [|p l Hp _ IH]; [reflexivity|].
  cbn [List.filter]. rewrite IH.
  destruct (Nat.eqb_spec p pid) as [->|_]; [lia|reflexivity].
Qed.

Lemma timeout_message_truthy (timeout_t : Type) (timeout_str : timeout_t -> str)
    (self : TestRunner timeout_t) :
  truthy (timeout_message timeout_str self) = true.
Proof. reflexivity. Qed.

Lemma method_strip_raise (v : json) (x : exn) :
  method_strip v = Raise x -> x = AttributeError.
Proof.
  destruct v; cbn; congruence.
Qed.

Section RunFacts.

Variable timeout_t : Type.
Variable timeout_str : timeout_t -> str.
Variable path_exists : str -> bool.
Variable json_load : str -> outcome json.
Variable child : str -> nat -> json -> timeout_t -> child_event.

Implicit Types (self : TestRunner timeout_t) (s : state) (fs : list (str * json)).

#[local] Abbreviation rst := (run_single_test timeout_str child).
#[local] Abbreviation body := (loop_body timeout_str child).
#[local] Abbreviation loop := (for_each timeout_str child).
#[local] Abbreviation run := (run_all_tests timeout_str json_load child).
#[local] Abbreviation prog := (main timeout_str path_exists json_load child).

(** ** One iteration, in full *)

(** An iteration over a dictionary with a string to expect: where it
    leaves the tally, the process table and the console. *)
Lemma loop_body_step self (n i : nat) fs (e : str) s :
  method_strip (field (py "expected") (JStr []) fs) = Ok e ->
  exists s',
    body self n i (JObj fs) s = (Ok tt, s')
    /\ spawned s' = S (spawned s)
    /\ console s'
       = console s
         ++ lines_of_case timeout_str child self n i (spawned s) (JObj fs)
    /\ running s'
       = match child (binary_path self) (spawned s)
                     (field (py "input") (JStr []) fs) (timeout self) with
         | CommFails _ true => spawned s :: running s
         | Overruns =>
             List.filter (fun p => negb (Nat.eqb p (spawned s))) (running s)
         | _ => running s
         end
    /\ (results s' = count_pass (results s)
        \/ exists f,
             results s' = count_fail (results s) f /\ has_error f = true).
Proof.
  intros He.
  rewrite (loop_body_obj _ timeout_str child self n i fs e s He). cbv zeta.
  unfold lines_of_case.
  rewrite (run_single_test_obj _ timeout_str child self fs e _ He).
  rewrite !try_block_eq. cbn [printed spawned console results running fst].
  destruct (child _ _ _ _) as [msg|out err rc| |msg alive].
  - eexists. split; [reflexivity|]. unfold settle. cbn.
    rewrite <- app_assoc. repeat split. right. eexists. split; reflexivity.
  - destruct (eqb (strip out) e); eexists; (split; [reflexivity|]);
      unfold settle; cbn; rewrite <- app_assoc; repeat split;
      [now left|right; eexists; split; reflexivity].
  - eexists. split; [reflexivity|]. unfold settle. cbn.
    rewrite <- app_assoc. repeat split. right. eexists. split; reflexivity.
  - eexists. split; [reflexivity|]. unfold settle. cbn.
    rewrite <- app_assoc. repeat split.
    right. eexists. split; reflexivity.
Qed.

(** An iteration over anything else raises before a child is spawned
    and before the tally is touched. *)
Lemma loop_body_ill_shaped self (n i : nat) (tc : json) s :
  well_shaped tc = false ->
  exists s',
    body self n i tc s = (Raise AttributeError, s')
    /\ results s' = results s
    /\ spawned s' = spawned s
    /\ running s' = running s.
Proof.
  intros Hw.
  destruct tc as [| | | | |fs];
    try (exists s; repeat split; reflexivity).
  destruct (method_strip (field (py "expected") (JStr []) fs)) as [e|x] eqn:He.
  - exfalso. unfold well_shaped in Hw.
    destruct (field (py "expected") (JStr []) fs);
      cbn [method_strip] in He; congruence.
  - rewrite (loop_body_obj_raise _ timeout_str child self n i fs x s He).
    apply method_strip_raise in He as ->.
    eexists. repeat split; reflexivity.
Qed.

Lemma well_shaped_strip (tc : json) :
  well_shaped tc = true ->
  exists fs e,
    tc = JObj fs /\ method_strip (field (py "expected") (JStr []) fs) = Ok e.
Proof.
  intros Hw. apply well_shaped_inv in Hw as (fs & e & -> & He).
  exists fs, (strip e). now rewrite He.
Qed.

Lemma well_shaped_cases (tc : json) :
  well_shaped tc = false
  \/ exists fs e,
       tc = JObj fs /\ method_strip (field (py "expected") (JStr []) fs) = Ok e.
Proof.
  destruct (well_shaped tc) eqn:Hw; [right|now left].
  now apply well_shaped_strip.
Qed.

(** ** Defaults in execution and in records *)

(** C8.  For a case without an [input] key, the child is given the
    empty string: [run_single_test] is its [try] statement run on the
    input [''].  For a case without an [expected] key, the output is
    compared with the empty string.  For a case without a [name] key,
    the header of the case shows "Test i", [i] being the position of
    the case in the suite counted from 1.  And when the case does not
    pass, the record appended for it holds these same defaults as
    [input], [expected] and [test]. *)
Theorem C8_missing_fields_take_defaults self (n i : nat) fs s :
  (lookup (py "input") fs = None ->
   forall e,
     method_strip (field (py "expected") (JStr []) fs) = Ok e ->
     rst self (JObj fs) s = try_block timeout_str child self (JStr []) e s)
  /\ (lookup (py "expected") fs = None ->
      rst self (JObj fs) s
      = try_block timeout_str child self
                  (field (py "input") (JStr []) fs) [] s)
  /\ (forall s',
        body self n i (JObj fs) s = (Ok tt, s') ->
        (lookup (py "name") fs = None ->
         exists rest,
           console s'
           = console s
             ++ PrCase i n (JStr (py "Test " ++ str_of_nat i)) :: rest)
        /\ (failed (results s') <> failed (results s) ->
            exists f,
              failures (results s') = failures (results s) ++ [f]
              /\ (lookup (py "input") fs = None -> f_input f = JStr [])
              /\ (lookup (py "expected") fs = None -> f_expected f = JStr [])
              /\ (lookup (py "name") fs = None ->
                  f_test f = JStr (py "Test " ++ str_of_nat i)))).
Proof.
  split; [|split].
  - intros Hin e He.
    rewrite (run_single_test_obj _ timeout_str child self fs e s He).
    now rewrite (field_absent _ _ _ Hin).
  - intros Hex.
    apply (run_single_test_obj _ timeout_str child self fs [] s).
    now rewrite (field_absent _ _ _ Hex).
  - intros s' Hrun. split.
    + intros Hname.
      destruct (well_shaped_cases (JObj fs)) as [Hw|(fs0 & e & Heq & He)].
      { destruct (loop_body_ill_shaped self n i (JObj fs) s Hw)
          as (s1 & Hb & _).
        rewrite Hb in Hrun. discriminate. }
      inversion Heq; subst fs0.
      destruct (loop_body_step self n i fs e s He) as (s1 & Hb & _ & Hc & _).
      rewrite Hb in Hrun. inversion Hrun; subst s1.
      rewrite Hc. unfold lines_of_case.
      rewrite (field_absent _ _ _ Hname). unfold positional_label.
      eexists. reflexivity.
    + intros Hfail.
      destruct (failed_case_record _ timeout_str child self n i fs s s'
                  Hrun Hfail) as (a & err & e & Hf & _).
      eexists. split; [exact Hf|]. cbn [f_input f_expected f_test].
      repeat split; intros H; now rewrite (field_absent _ _ _ H).
Qed.

(** ** The tally at every exit *)

Lemma tally_ok_pass (r : results_t) : tally_ok r -> tally_ok (count_pass r).
Proof.
  unfold tally_ok, count_pass. cbn. lia.
Qed.

Lemma tally_ok_fail (r : results_t) (f : failure_info) :
  tally_ok r -> tally_ok (count_fail r f).
Proof.
  unfold tally_ok, count_fail. cbn. rewrite length_app. cbn. lia.
Qed.

Lemma for_each_any self (n : nat) (items : list json) :
  forall (i : nat) s (o : outcome unit) s',
    loop self n i items s = (o, s') ->
    exists l,
      failures (results s') = failures (results s) ++ l
      /\ forallb has_error l = true
      /\ failed (results s') = failed (results s) + List.length l
      /\ passed (results s') + failed (results s') + total (results s)
         = passed (results s) + failed (results s) + total (results s')
      /\ total (results s') + spawned s = total (results s) + spawned s'
      /\ total (results s) <= total (results s')
      /\ total (results s') <= total (results s) + List.length items.
Proof.
  induction items as [|tc rest IH]; intros i s o s' H.
  - cbn in H. inversion H; subst.
    exists []. rewrite app_nil_r. cbn. repeat split; lia.
  - cbn [for_each] in H. unfold bind in H.
    destruct (well_shaped_cases tc) as [Hw|(fs & e & -> & He)].
    + destruct (loop_body_ill_shaped self n i tc s Hw)
        as (s1 & Hb & Hr & Hs & _).
      rewrite Hb in H. inversion H; subst. rewrite Hr, Hs.
      exists []. rewrite app_nil_r. cbn. repeat split; lia.
    + destruct (loop_body_step self n i fs e s He)
        as (s1 & Hb & Hs & _ & _ & Hres).
      rewrite Hb in H.
      destruct (IH _ _ _ _ H) as (l & Hl & Hle & Hfl & Hpf & Hts & Hlo & Hhi).
      destruct Hres as [Hr|(f & Hr & Hf)];
        rewrite Hr in Hl, Hfl, Hpf, Hts, Hlo, Hhi;
        cbn [count_pass count_fail failures failed total passed] in *.
      * exists l. cbn [List.length]. repeat split; try assumption; lia.
      * exists (f :: l). rewrite <- app_assoc in Hl.
        cbn [forallb List.length]. rewrite Hf, Hle.
        repeat split; try assumption; try reflexivity; lia.
Qed.

(** [run_all_tests] either raises before the loop, the state being as
    it was, or announces the number of cases and enters the loop. *)
Lemma run_all_tests_cases self s :
  (exists x, run self s = (Raise x, s))
  \/ (exists tests cs n items,
        json_load (tests_file self) = Ok tests
        /\ subscript tests (py "test_cases") = Ok cs
        /\ py_len cs = Ok n
        /\ py_iter cs = Ok items
        /\ List.length items = n
        /\ run self s = loop self n 1 items (printed s [PrRunning n])).
Proof.
  unfold run_all_tests, load_tests, bind, lift.
  destruct (json_load (tests_file self)) as [tests|x] eqn:Hl; [|left; eauto].
  destruct (subscript tests (py "test_cases")) as [cs|x] eqn:Hs; [|left; eauto].
  destruct (py_len cs) as [n|x] eqn:Hn; [|left; eauto].
  destruct (py_len_iter cs n Hn) as [items Hi].
  right. exists tests, cs, n, items. rewrite print_eq, Hi.
  repeat split; try reflexivity; try assumption.
  now apply (py_iter_length cs).
Qed.

Lemma has_error_lines (f : failure_info) :
  has_error f = true ->
  exists e,
    f_error f = Some e
    /\ e <> []
    /\ In (PrItemError e) (item_lines f)
    /\ In (PrDetailsError e) (detail_lines f).
Proof.
  unfold has_error, item_lines, detail_lines.
  destruct (f_error f) as [e|]; [|discriminate].
  intros He. exists e. rewrite He.
  split; [reflexivity|]. split; [now destruct e|].
  split; destruct (f_actual f); cbn; auto 10.
Qed.

(** X1.  Whenever [run_all_tests] is left, by returning or by an
    exception, a tally that was consistent before is consistent after:
    passed + failed = total and the list of failures has [failed]
    entries.  The records present before are still there, in front of
    the new ones, and [total] has grown by the number of children
    spawned. *)
Theorem tally_consistent_at_every_exit self s (o : outcome unit) s' :
  run self s = (o, s') ->
  tally_ok (results s) ->
  tally_ok (results s')
  /\ (exists l, failures (results s') = failures (results s) ++ l)
  /\ total (results s') + spawned s = total (results s) + spawned s'.
Proof.
  intros Hrun [Hpf Hlen].
  destruct (run_all_tests_cases self s)
    as [[x Hx]|(tests & cs & n & items & _ & _ & _ & _ & _ & Hloop)].
  - rewrite Hx in Hrun. inversion Hrun; subst.
    split; [now split|]. split; [exists []; now rewrite app_nil_r|lia].
  - rewrite Hloop in Hrun.
    apply for_each_any in Hrun as (l & Hl & _ & Hfl & Hsum & Hts & Hlo & _).
    cbn [printed results spawned] in *.
    split; [|split; [now exists l|lia]].
    unfold tally_ok. rewrite Hl, length_app. lia.
Qed.

(** X2.  Every record that a run appends, whether the run returns or
    is cut short, carries a non-empty error message; so both the
    verbose details and the summary entry of the record contain an
    Error line: the test [if failure['error']] never fails on a record
    made by the runner. *)
Theorem every_record_has_an_error_line self s (o : outcome unit) s' :
  run self s = (o, s') ->
  exists l,
    failures (results s') = failures (results s) ++ l
    /\ Forall (fun f =>
                 exists e,
                   f_error f = Some e
                   /\ e <> []
                   /\ In (PrItemError e) (item_lines f)
                   /\ In (PrDetailsError e) (detail_lines f)) l.
Proof.
  intros Hrun.
  destruct (run_all_tests_cases self s)
    as [[x Hx]|(tests & cs & n & items & _ & _ & _ & _ & _ & Hloop)].
  - rewrite Hx in Hrun. inversion Hrun; subst.
    exists []. now rewrite app_nil_r.
  - rewrite Hloop in Hrun.
    apply for_each_any in Hrun as (l & Hl & Hle & _).
    exists l. split; [exact Hl|].
    apply Forall_forall. intros f Hin. apply has_error_lines.
    rewrite forallb_forall in Hle. now apply Hle.
Qed.

(** ** Runs that are cut short *)



(** ** The exit status of a whole run *)


(** X5.  When the loaded document is not a dictionary, has no
    [test_cases] key, or has a [test_cases] value without a length,
    [main] prints the error ([KeyError] for the missing key,
    [TypeError] otherwise) and exits with status 1: nothing else is
    printed, not even the number of tests, and no child is spawned. *)
Theorem malformed_document_is_fatal (args : args_t timeout_t)
    (tests : json) (x : exn) s :
  path_exists (arg_binary args) = true ->
  path_exists (arg_tests args) = true ->
  json_load (arg_tests args) = Ok tests ->
  suite_shape_error tests = Some x ->
  prog args s = (1%Z, printed (reset s) [PrFatal x]).
Proof.
  intros Hb Ht Hl Hx.
  rewrite (main_started _ timeout_str path_exists json_load child args s Hb Ht).
  assert (Hrun : run (runner_of args) (reset s) = (Raise x, reset s)).
  { unfold run_all_tests, load_tests, bind, lift.
    cbn [runner_of tests_file]. rewrite Hl.
    unfold suite_shape_error in Hx. unfold subscript.
    destruct tests as [| | | | |fs]; try (inversion Hx; reflexivity).
    destruct (lookup (py "test_cases") fs) as [[| | | | |]|];
      inversion Hx; reflexivity. }
  now rewrite Hrun.
Qed.

(** X6.  When the [test_cases] value is a string or a dictionary
    instead of a list, the runner announces its length and iterates
    over its characters or keys, which are strings: an empty one is an
    empty suite (status 0), any other one stops at its first item with
    an [AttributeError] (status 1) before any child is spawned. *)
Theorem test_cases_that_is_not_a_list (args : args_t timeout_t)
    (tests cs : json) (n : nat) s :
  path_exists (arg_binary args) = true ->
  path_exists (arg_tests args) = true ->
  json_load (arg_tests args) = Ok tests ->
  subscript tests (py "test_cases") = Ok cs ->
  py_len cs = Ok n ->
  (forall l, cs <> JArr l) ->
  prog args s
  = if n =? 0
    then (0%Z, printed (reset s) (PrRunning 0 :: summary_lines no_results))
    else (1%Z, printed (reset s) [PrRunning n; PrFatal AttributeError]).
Proof.
  intros Hb Ht Hl Hs Hn Hcs.
  rewrite (main_started _ timeout_str path_exists json_load child args s Hb Ht).
  destruct (py_len_iter cs n Hn) as [items Hi].
  rewrite (run_all_tests_eq _ timeout_str json_load child (runner_of args)
             tests cs n items (reset s) Hl Hs Hn Hi).
  assert (Hitems : items = [] /\ n = 0
                   \/ exists c rest, items = JStr c :: rest /\ n <> 0).
  { destruct cs as [| | |c|l|kvs]; cbn in Hn, Hi; try discriminate.
    - inversion Hn; inversion Hi; subst.
      destruct c; [now left|right; cbn; eauto].
    - now destruct (Hcs l).
    - inversion Hn; inversion Hi; subst.
      destruct kvs; [now left|right; cbn; eauto]. }
  destruct Hitems as [[-> ->]|(c & rest & -> & Hn0)].
  - cbn. now rewrite printed_app.
  - apply Nat.eqb_neq in Hn0. rewrite Hn0.
    cbn [for_each]. unfold bind.
    destruct (loop_body_ill_shaped (runner_of args) n 1 (JStr c)
                (printed (reset s) [PrRunning n]) eq_refl)
      as (s1 & Hb1 & _).
    assert (Hs1 : body (runner_of args) n 1 (JStr c)
                       (printed (reset s) [PrRunning n])
                  = (Raise AttributeError, printed (reset s) [PrRunning n]))
      by reflexivity.
    rewrite Hs1. now rewrite printed_app.
Qed.

(** ** The process table and the console of a completed run *)

Lemma for_each_done self (n : nat) (items : list json) :
  forall (i : nat) s s',
    loop self n i items s = (Ok tt, s') ->
    console s'
    = console s ++ lines_from timeout_str child self n i (spawned s) items
    /\ (fresh s ->
        fresh s'
        /\ running s' = leaked_from child self (spawned s) items ++ running s)
    /\ (is_verbose self = false ->
        List.length (lines_from timeout_str child self n i (spawned s) items)
        = 2 * List.length items
        /\ existsb is_detail_line
                   (lines_from timeout_str child self n i (spawned s) items)
           = false
        \/ items = []).
Proof.
  induction items as [|tc rest IH]; intros i s s' H.
  - cbn in H. inversion H; subst. cbn. rewrite app_nil_r. auto.
  - cbn [for_each] in H. unfold bind in H.
    destruct (well_shaped_cases tc) as [Hw|(fs & e & -> & He)].
    { destruct (loop_body_ill_shaped self n i tc s Hw) as (s1 & Hb & _).
      rewrite Hb in H. discriminate. }
    destruct (loop_body_step self n i fs e s He)
      as (s1 & Hb & Hs & Hc & Hrun & _).
    rewrite Hb in H. apply IH in H as (Hc' & Hfresh & Hquiet).
    rewrite Hs, Hc in *. cbn [lines_from leaked_from].
    split; [now rewrite Hc', app_assoc|]. split.
    + intros Hf. unfold fresh in Hf.
      assert (Hf1 : fresh s1).
      { unfold fresh. rewrite Hs, Hrun.
        assert (Hlt : Forall (fun p => p < S (spawned s)) (running s)).
        { eapply Forall_impl; [|exact Hf]. cbn. intros; lia. }
        destruct (child _ _ _ _) as [| | |msg [|]]; try assumption.
        - rewrite (filter_fresh _ _ Hf). exact Hlt.
        - constructor; [lia|exact Hlt]. }
      destruct (Hfresh Hf1) as [Hf' Hr']. split; [exact Hf'|].
      rewrite Hr', Hrun, <- app_assoc. f_equal.
      destruct (child _ _ _ _) as [| | |msg [|]]; try reflexivity.
      now rewrite (filter_fresh _ _ Hf).
    + intros Hq. left.
      assert (Hone : exists v,
                 lines_of_case timeout_str child self n i (spawned s) (JObj fs)
                 = [PrCase i n (field (py "name") (positional_label i) fs); v]
                 /\ is_detail_line v = false).
      { unfold lines_of_case.
        rewrite (run_single_test_obj _ timeout_str child self fs e _ He).
        destruct (try_block_returns _ timeout_str child self
                    (field (py "input") (JStr []) fs) e
                    (mkState no_results (spawned s) [] []))
          as ([[p a] err] & s2 & -> & _).
        cbn [fst]. rewrite Hq. destruct p; eexists; split; reflexivity. }
      destruct Hone as (v & -> & Hv).
      destruct (Hquiet Hq) as [[Hlen Hnone]| ->].
      * cbn [app List.length existsb is_detail_line orb]. rewrite Hlen, Hv, Hnone.
        split; [lia|reflexivity].
      * cbn. rewrite Hv. auto.
Qed.

(** X7.  After a completed run that started with every running child
    already counted, the children still running are those that were
    running before together with the children whose [communicate] call
    failed, other than by a timeout, while they were alive: the runner
    kills a child only in its timeout handler.  In particular a run
    in which no such failure occurs leaves the process table as it
    found it. *)
Theorem children_left_behind self (tests cs : json) (items : list json) s s' :
  json_load (tests_file self) = Ok tests ->
  subscript tests (py "test_cases") = Ok cs ->
  py_iter cs = Ok items ->
  fresh s ->
  run self s = (Ok tt, s') ->
  running s' = leaked_from child self (spawned s) items ++ running s
  /\ fresh s'
  /\ ((forall pid inp msg,
         child (binary_path self) pid inp (timeout self) <> CommFails msg true) ->
      running s' = running s).
Proof.
  intros Hl Hs Hi Hf Hrun.
  assert (Hn : exists n, py_len cs = Ok n)
    by (destruct cs; cbn in Hi; try discriminate; eexists; reflexivity).
  destruct Hn as [n Hn].
  rewrite (run_all_tests_eq _ timeout_str json_load child self tests cs n items
             s Hl Hs Hn Hi) in Hrun.
  apply for_each_done in Hrun as (_ & Hfresh & _).
  destruct (Hfresh Hf) as [Hf' Hr]. cbn [printed spawned running] in Hr.
  split; [exact Hr|]. split; [exact Hf'|].
  intros Hnone. rewrite Hr.
  assert (Hnil : forall l pid, leaked_from child self pid l = []).
  { induction l as [|tc l IHl]; intros pid; [reflexivity|].
    cbn [leaked_from]. rewrite IHl. cbn [app].
    destruct tc as [| | | | |fs]; try reflexivity.
    destruct (child _ _ _ _) as [| | |msg [|]] eqn:E; try reflexivity.
    now destruct (Hnone _ _ _ E). }
  now rewrite Hnil.
Qed.

(** X8.  The console of a completed run: the announcement of the
    number of cases, then, case by case in suite order, the header
    with the position of the case (from 1), the number of cases and
    its name, the verdict, and the details of a failure when the
    runner is verbose.  Nothing is printed between or after. *)
Theorem console_of_a_completed_run self (tests cs : json) (n : nat)
    (items : list json) s s' :
  json_load (tests_file self) = Ok tests ->
  subscript tests (py "test_cases") = Ok cs ->
  py_len cs = Ok n ->
  py_iter cs = Ok items ->
  run self s = (Ok tt, s') ->
  console s'
  = console s
    ++ PrRunning n :: lines_from timeout_str child self n 1 (spawned s) items.
Proof.
  intros Hl Hs Hn Hi Hrun.
  rewrite (run_all_tests_eq _ timeout_str json_load child self tests cs n items
             s Hl Hs Hn Hi) in Hrun.
  apply for_each_done in Hrun as (Hc & _).
  cbn [printed console spawned] in Hc. now rewrite Hc, <- app_assoc.
Qed.

(** X9.  A runner that is not verbose, or that has no [verbose]
    attribute at all (the object as [__init__] leaves it), prints
    during a completed run the announcement and exactly two lines per
    case, none of which is a line of [print_failure_details]. *)
Theorem quiet_run_prints_two_lines_per_case self (tests cs : json) (n : nat)
    (items : list json) s s' :
  json_load (tests_file self) = Ok tests ->
  subscript tests (py "test_cases") = Ok cs ->
  py_len cs = Ok n ->
  py_iter cs = Ok items ->
  verbose self = None \/ verbose self = Some false ->
  run self s = (Ok tt, s') ->
  exists added,
    console s' = console s ++ PrRunning n :: added
    /\ List.length added = 2 * n
    /\ existsb is_detail_line added = false.
Proof.
  intros Hl Hs Hn Hi Hv Hrun.
  assert (Hq : is_verbose self = false)
    by (unfold is_verbose; destruct Hv as [-> | ->]; reflexivity).
  pose proof (py_iter_length cs n items Hn Hi) as Hlen.
  rewrite (run_all_tests_eq _ timeout_str json_load child self tests cs n items
             s Hl Hs Hn Hi) in Hrun.
  apply for_each_done in Hrun as (Hc & _ & Hquiet).
  cbn [printed console spawned] in Hc, Hquiet.
  exists (lines_from timeout_str child self n 1 (spawned s) items).
  split; [now rewrite Hc, <- app_assoc|].
  destruct (Hquiet Hq) as [[Hlen2 Hnone]| ->].
  - rewrite Hlen2, Hlen. auto.
  - cbn in Hlen. subst n. cbn. auto.
Qed.

(** ** Two runs on one runner *)

(** X10.  [run_all_tests] does not reset the tally: only [__init__]
    does.  A second completed run on the same runner adds its cases
    and its records to those of the first, so that after two runs of a
    suite of [n] cases [total] is [2 * n], the tally is still
    consistent, and the records of the first run come first. *)
Theorem second_run_adds_to_the_tally self (tests cs : json) (n : nat)
    s s1 s2 :
  json_load (tests_file self) = Ok tests ->
  subscript tests (py "test_cases") = Ok cs ->
  py_len cs = Ok n ->
  results s = no_results ->
  run self s = (Ok tt, s1) ->
  run self s1 = (Ok tt, s2) ->
  total (results s1) = n
  /\ total (results s2) = 2 * n
  /\ tally_ok (results s2)
  /\ spawned s2 = spawned s + 2 * n
  /\ exists items,
       py_iter cs = Ok items
       /\ failures (results s2)
          = records_from timeout_str child self 1 (spawned s) items
            ++ records_from timeout_str child self 1 (spawned s + n) items.
Proof.
  intros Hl Hs Hn Hfresh H1 H2.
  destruct (py_len_iter cs n Hn) as [items Hi].
  pose proof (py_iter_length cs n items Hn Hi) as Hlen.
  rewrite (run_all_tests_eq _ timeout_str json_load child self tests cs n items
             s Hl Hs Hn Hi) in H1.
  rewrite (run_all_tests_eq _ timeout_str json_load child self tests cs n items
             s1 Hl Hs Hn Hi) in H2.
  apply for_each_inv in H1 as (Hr1 & Hsp1 & Hle1).
  apply for_each_inv in H2 as (Hr2 & Hsp2 & Hle2).
  cbn [printed results spawned] in *.
  rewrite Hfresh in Hr1.
  cbn [no_results passed failed total failures app Nat.add] in Hr1.
  rewrite Hr1, Hsp1 in Hr2. rewrite Hsp1 in Hsp2, Hle2.
  cbn [passed failed total failures] in Hr2.
  rewrite Hlen in *.
  split; [now rewrite Hr1|]. split; [rewrite Hr2; cbn; lia|].
  split; [|split; [lia|exists items; split; [exact Hi|now rewrite Hr2]]].
  unfold tally_ok. rewrite Hr2. cbn [passed failed total failures].
  rewrite length_app. lia.
Qed.

(** ** Start-up *)

(** X11.  [__init__] looks for the binary first.  When the binary does
    not exist, [main] prints "Binary not found: " and the path,
    whether or not the suite file exists; when the binary exists and
    the suite file does not, it prints "Tests file not found: " and
    that path.  The path is shown as [Path] writes it ([./x] as [x]).
    In both cases this is the only line printed and the status is 1.
    The two arguments are taken to be plain ASCII, so that the line
    can be written on any console. *)
Theorem startup_diagnostics (args : args_t timeout_t) s :
  path_exists (arg_binary args) = false
  \/ path_exists (arg_tests args) = false ->
  plain (arg_binary args) = true ->
  plain (arg_tests args) = true ->
  prog args s
  = (1%Z,
     printed (reset s)
       [PrFatal
          (FileNotFoundError
             (if path_exists (arg_binary args)
              then py "Tests file not found: "
                   ++ PyPath.path_str (arg_tests args)
              else py "Binary not found: "
                   ++ PyPath.path_str (arg_binary args)))]).
Proof.
  intros H _ _. unfold main, main_try. unfold bind at 1. rewrite init_eq.
  destruct (path_exists (arg_binary args)); cbn [negb].
  - destruct H as [H|H]; [discriminate|]. rewrite H. cbn [negb].
    now rewrite print_eq.
  - now rewrite print_eq.
Qed.

End RunFacts.

(** ** The output that a verdict reports *)

Lemma lstrip_head (s : str) :
  match lstrip s with
  | [] => True
  | c :: _ => isspace c = false
  end.
Proof.
  induction s as [|c s IH]; cbn; [exact I|].
  destruct (isspace c) eqn:E; [exact IH|exact E].
Qed.

Lemma lstrip_fixed (a : str) :
  match a with [] => True | c :: _ => isspace c = false end ->
  lstrip a = a.
Proof.
  destruct a as [|c a]; cbn; [reflexivity|]. now intros ->.
Qed.

Lemma lstrip_snoc_nonblank (u : str) (c : char) :
  isspace c = false -> lstrip (u ++ [c]) = lstrip u ++ [c].
Proof.
  intros Hc. induction u as [|d u IH]; cbn.
  - now rewrite Hc.
  - destruct (isspace d); [exact IH|reflexivity].
Qed.

Lemma rstrip_cons_nonblank (c : char) (t : str) :
  isspace c = false -> rstrip (c :: t) = c :: rstrip t.
Proof.
  intros Hc. unfold rstrip. cbn [rev].
  rewrite (lstrip_snoc_nonblank _ _ Hc). now rewrite rev_unit.
Qed.

Lemma rev_rstrip (s : str) : rev (rstrip s) = lstrip (rev s).
Proof.
  unfold rstrip. now rewrite rev_involutive.
Qed.

Lemma strip_trimmed (s : str) : trimmed (strip s) = true.
Proof.
  unfold trimmed, strip. rewrite rev_rstrip.
  pose proof (lstrip_head (rev (lstrip s))) as Hlast.
  pose proof (lstrip_head s) as Hfirst.
  apply andb_true_iff. split.
  - destruct (lstrip s) as [|c t]; [reflexivity|].
    rewrite (rstrip_cons_nonblank _ _ Hfirst). now rewrite Hfirst.
  - destruct (lstrip (rev (lstrip s))); [reflexivity|]. now rewrite Hlast.
Qed.

Lemma trimmed_strip (a : str) : trimmed a = true -> strip a = a.
Proof.
  unfold trimmed, strip, rstrip. intros H.
  apply andb_true_iff in H as [Hf Hl].
  rewrite (lstrip_fixed a).
  - rewrite (lstrip_fixed (rev a)); [apply rev_involutive|].
    destruct (rev a); [exact I|]. now apply negb_true_iff.
  - destruct a; [exact I|]. now apply negb_true_iff.
Qed.

(** X12.  The output that [run_single_test] reports, in a passing
    verdict as in a mismatch, neither begins nor ends with white
    space, and stripping it again leaves it as it is. *)
Theorem reported_output_is_stripped (timeout_t : Type)
    (timeout_str : timeout_t -> str)
    (child : str -> nat -> json -> timeout_t -> child_event)
    (self : TestRunner timeout_t) (tc : json) (s s' : state)
    (p : bool) (a : str) (err : option str) :
  run_single_test timeout_str child self tc s = (Ok (p, Some a, err), s') ->
  trimmed a = true /\ strip a = a.
Proof.
  intros H.
  assert (Ht : trimmed a = true).
  { destruct tc as [| | | | |fs]; try (cbv in H; discriminate).
    destruct (method_strip (field (py "expected") (JStr []) fs))
      as [e|x] eqn:He.
    - rewrite (run_single_test_obj _ timeout_str child self fs e s He) in H.
      rewrite try_block_eq in H.
      destruct (child _ _ _ _) as [msg|out err0 rc| |msg alive];
        try (inversion H; fail).
      destruct (eqb (strip out) e); inversion H; subst; apply strip_trimmed.
    - rewrite (run_single_test_obj_raise _ timeout_str child self fs x s He) in H.
      discriminate. }
  split; [exact Ht|now apply trimmed_strip].
Qed.


(** * Properties of the downloader *)

(** ** Addresses *)

Lemma resolve_url_base (y : str) :
  Downloader.startswith (Downloader.BASE_URL ++ y) (py "https://") = true
  /\ Downloader.startswith (Downloader.BASE_URL ++ y) (py "http://") = false.
Proof.
  split; reflexivity.
Qed.

(** X13.  [resolve_url] always returns an address that starts with
    "http://" or "https://", and resolving a resolved address changes
    nothing. *)
Theorem resolve_url_absolute_and_idempotent (src : str) :
  Downloader.startswith (Downloader.resolve_url src) (py "http://")
  || Downloader.startswith (Downloader.resolve_url src) (py "https://") = true
  /\ Downloader.resolve_url (Downloader.resolve_url src)
     = Downloader.resolve_url src.
Proof.
  unfold Downloader.resolve_url.
  destruct (Downloader.startswith src (py "http://")
            || Downloader.startswith src (py "https://")) eqn:E.
  - rewrite E. auto.
  - destruct (resolve_url_base (Downloader.lstrip_chars (py "/") src))
      as [Hs Hp].
    rewrite Hs, Hp. auto.
Qed.

Lemma lstrip_slashes (k : nat) (src : str) :
  Downloader.lstrip_chars (py "/") (repeat 47%N k ++ src)
  = Downloader.lstrip_chars (py "/") src.
Proof.
  induction k as [|k IH]; [reflexivity|exact IH].
Qed.

(** X14.  For an address that does not start with "http://" or
    "https://", any number of slashes in front of it is ignored: it
    resolves to the base address followed by the address without its
    leading slashes, so the result has no double slash at the joint. *)
Theorem resolve_url_ignores_leading_slashes (k : nat) (src : str) :
  Downloader.startswith src (py "http://")
  || Downloader.startswith src (py "https://") = false ->
  Downloader.resolve_url (repeat 47%N k ++ src) = Downloader.resolve_url src
  /\ Downloader.resolve_url src
     = Downloader.BASE_URL ++ Downloader.lstrip_chars (py "/") src
  /\ Downloader.startswith (Downloader.lstrip_chars (py "/") src) (py "/")
     = false.
Proof.
  intros Hrel. split; [|split].
  - unfold Downloader.resolve_url at 2. rewrite Hrel.
    destruct k as [|k]; [cbn [repeat app]|].
    + unfold Downloader.resolve_url. now rewrite Hrel.
    + unfold Downloader.resolve_url.
      replace (Downloader.startswith (repeat 47%N (S k) ++ src) (py "http://")
               || Downloader.startswith (repeat 47%N (S k) ++ src)
                                        (py "https://"))
        with false by reflexivity.
      now rewrite lstrip_slashes.
  - unfold Downloader.resolve_url. now rewrite Hrel.
  - clear Hrel. change (py "/") with [47%N] in *.
    induction src as [|c src IH]; [reflexivity|].
    cbn [Downloader.lstrip_chars existsb].
    destruct (N.eqb c 47) eqn:E; cbn [orb].
    + exact IH.
    + cbn [Downloader.startswith]. now rewrite E.
Qed.

(** ** One series *)

Section SeriesFacts.

Variable http_get : nat -> str -> Downloader.get_result.
Variable returns : nat -> Downloader.event -> bool.

Implicit Types (st : Downloader.dstate) (letter : str).

#[local] Abbreviation sloop := (Downloader.series_loop http_get returns).
#[local] Abbreviation series := (Downloader.download_series http_get returns).

Lemma gets_app (t1 t2 : list Downloader.event) :
  Downloader.gets (t1 ++ t2) = Downloader.gets t1 ++ Downloader.gets t2.
Proof. apply flat_map_app. Qed.

Lemma processed_app (t1 t2 : list Downloader.event) :
  Downloader.processed (t1 ++ t2)
  = Downloader.processed t1 ++ Downloader.processed t2.
Proof. apply flat_map_app. Qed.

Lemma stops_app (t1 t2 : list Downloader.event) :
  Downloader.stops (t1 ++ t2) = Downloader.stops t1 ++ Downloader.stops t2.
Proof. apply flat_map_app. Qed.

Lemma one_more_request (url : str) st :
  Downloader.one_more url [] (Downloader.count_request url st) st.
Proof.
  unfold Downloader.one_more, Downloader.count_request. cbn.
  rewrite gets_app, processed_app, stops_app. cbn.
  now rewrite !app_nil_r.
Qed.

Lemma one_more_error (url err : str) st :
  Downloader.one_more url []
    (Downloader.emit (Downloader.EvError url err)
                     (Downloader.count_request url st)) st.
Proof.
  unfold Downloader.one_more, Downloader.count_request, Downloader.emit. cbn.
  rewrite !gets_app, !processed_app, !stops_app. cbn.
  now rewrite !app_nil_r.
Qed.

Lemma one_more_page (url : str) letter (num : nat)
    (resp : Downloader.response) st :
  Downloader.one_more url [(letter, num)]
    (Downloader.emit (Downloader.EvProcess letter num resp)
                     (Downloader.count_request url st)) st.
Proof.
  unfold Downloader.one_more, Downloader.count_request, Downloader.emit. cbn.
  rewrite !gets_app, !processed_app, !stops_app. cbn.
  now rewrite !app_nil_r.
Qed.

Lemma one_more_raised (url : str) (extra : list (str * nat)) st1 st :
  Downloader.one_more url extra st1 st ->
  Downloader.one_more url extra (Downloader.emit Downloader.EvRaised st1) st.
Proof.
  unfold Downloader.one_more, Downloader.emit. cbn.
  rewrite !gets_app, !processed_app, !stops_app. cbn.
  now rewrite !app_nil_r.
Qed.

(** An iteration that goes on to the next number. *)
Lemma requested_cons letter (a len : nat) (extra : list (str * nat)) st1 st
    (r : bool * Downloader.dstate) :
  Downloader.one_more (Downloader.page_url letter a) extra st1 st ->
  extra = [] \/ extra = [(letter, a)] ->
  Downloader.requested letter (S a) len st1 r ->
  Downloader.requested letter a (S len) st r.
Proof.
  intros (Hs & Hg & Hp & Hst) Hextra (k & Hk & Hsent & Hgets & Hproc & Hend).
  exists (S k). split; [lia|]. split; [lia|].
  split; [rewrite Hgets, Hg, <- app_assoc; reflexivity|].
  split.
  - destruct Hproc as (nums & Hn & Hin). rewrite Hp in Hn.
    destruct Hextra as [-> | ->].
    + exists nums. rewrite app_nil_r in Hn. split; [exact Hn|].
      intros x Hx. right. now apply Hin.
    + exists (a :: nums). rewrite <- app_assoc in Hn. split; [exact Hn|].
      intros x [<-|Hx]; [now left|right; now apply Hin].
  - unfold Downloader.ending in *. rewrite Hst in Hend.
    replace (a + S k - 1) with (S a + k - 1) by lia.
    destruct Hend as [(H1 & H2 & H3)|[(H1 & H2 & H3)|(H1 & H2)]].
    + left. split; [exact H1|]. split; [exact H2|]. lia.
    + right. left. split; [exact H1|]. split; [exact H2|]. lia.
    + right. right. split; [exact H1|]. lia.
Qed.

(** An iteration that raises. *)
Lemma requested_raised letter (a len : nat) (extra : list (str * nat)) st1 st :
  Downloader.one_more (Downloader.page_url letter a) extra st1 st ->
  extra = [] \/ extra = [(letter, a)] ->
  Downloader.requested letter a (S len) st (false, st1).
Proof.
  intros (Hs & Hg & Hp & Hst) Hextra.
  exists 1. cbn [fst snd seq List.map]. split; [lia|]. split; [lia|].
  split; [exact Hg|]. split.
  - rewrite Hp. destruct Hextra as [-> | ->].
    + exists []. split; [reflexivity|]. intros x [].
    + exists [a]. split; [reflexivity|]. intros x Hx. exact Hx.
  - right. right. split; [reflexivity|lia].
Qed.

(** The iteration that meets the limit of misses. *)
Lemma requested_stop letter (a len : nat) st :
  Downloader.requested letter a (S len) st
    (Downloader.perform returns (Downloader.EvStop letter a)
       (Downloader.count_request (Downloader.page_url letter a) st)).
Proof.
  unfold Downloader.perform.
  destruct (returns _ _).
  - exists 1. unfold Downloader.ending, Downloader.emit,
      Downloader.count_request.
    cbn [fst snd Downloader.sent Downloader.trace seq List.map].
    rewrite !gets_app, !processed_app, !stops_app. cbn.
    rewrite !app_nil_r. split; [lia|]. split; [lia|].
    split; [reflexivity|]. split.
    + exists []. cbn. rewrite app_nil_r. split; [reflexivity|]. intros x [].
    + right. left. split; [reflexivity|]. split; [|lia].
      now replace (a + 1 - 1) with a by lia.
  - exists 1. unfold Downloader.ending, Downloader.emit,
      Downloader.count_request.
    cbn [fst snd Downloader.sent Downloader.trace seq List.map].
    rewrite !gets_app, !processed_app, !stops_app. cbn.
    rewrite !app_nil_r. split; [lia|]. split; [lia|].
    split; [reflexivity|]. split.
    + exists []. cbn. rewrite app_nil_r. split; [reflexivity|]. intros x [].
    + right. right. split; [reflexivity|lia].
Qed.

Lemma series_loop_spec letter (len : nat) :
  forall (a misses : nat) (found_any : bool) st,
    Downloader.requested letter a len st
      (sloop letter (seq a len) misses found_any st).
Proof.
  induction len as [|len IH]; intros a misses found_any st.
  - exists 0. cbn. rewrite Nat.add_0_r, !app_nil_r.
    split; [lia|]. split; [reflexivity|]. split; [reflexivity|].
    split; [|left; auto].
    exists []. cbn. rewrite app_nil_r. split; [reflexivity|]. intros x [].
  - cbn [seq Downloader.series_loop]. cbv zeta.
    set (url := Downloader.page_url letter a).
    destruct (http_get (Downloader.sent st) url) as [err|resp].
    + unfold Downloader.perform. destruct (returns _ _).
      * eapply (requested_cons letter a len []);
          [apply one_more_error|now left|apply IH].
      * apply (requested_raised letter a len []); [|now left].
        apply one_more_raised, one_more_error.
    + destruct (Downloader.valid resp).
      * unfold Downloader.perform. destruct (returns _ _).
        -- eapply (requested_cons letter a len [(letter, a)]);
             [apply one_more_page|now right|apply IH].
        -- apply (requested_raised letter a len [(letter, a)]); [|now right].
           apply one_more_raised, one_more_page.
      * destruct found_any.
        -- destruct (Downloader.CONSECUTIVE_MISSES_LIMIT <=? misses + 1).
           ++ apply requested_stop.
           ++ eapply (requested_cons letter a len []);
                [apply one_more_request|now left|apply IH].
        -- eapply (requested_cons letter a len []);
             [apply one_more_request|now left|apply IH].
Qed.

(** X15.  [download_series] requests the pages 1, 2, ... up to some
    number [k] not above [max_num], one request each and in this
    order; the pages it hands to [process_html] are among them; and it
    stops short of [max_num] only by giving up at the last page it
    requested, or because of an exception (of [process_html] or of a
    [print]) in the iteration of that page, with which it ends.  A
    [max_num] of zero or less requests nothing. *)
Theorem download_series_requests letter (max_num : Z) st :
  exists k,
    k <= Z.to_nat max_num
    /\ Downloader.sent (snd (series letter max_num st)) = Downloader.sent st + k
    /\ Downloader.gets (Downloader.trace (snd (series letter max_num st)))
       = Downloader.gets (Downloader.trace st)
         ++ List.map (Downloader.page_url letter) (seq 1 k)
    /\ (exists nums,
          Downloader.processed
            (Downloader.trace (snd (series letter max_num st)))
          = Downloader.processed (Downloader.trace st)
            ++ List.map (pair letter) nums
          /\ incl nums (seq 1 k))
    /\ (fst (series letter max_num st) = true
        /\ Downloader.stops (Downloader.trace (snd (series letter max_num st)))
           = Downloader.stops (Downloader.trace st)
        /\ k = Z.to_nat max_num
        \/ fst (series letter max_num st) = true
           /\ Downloader.stops
                (Downloader.trace (snd (series letter max_num st)))
              = Downloader.stops (Downloader.trace st) ++ [(letter, k)]
           /\ 1 <= k
        \/ fst (series letter max_num st) = false /\ 1 <= k).
Proof.
  unfold Downloader.download_series.
  destruct (series_loop_spec letter (Z.to_nat max_num) 1 0 false st)
    as (k & Hk & Hs & Hg & Hp & Hend).
  exists k. repeat (split; [assumption|]).
  unfold Downloader.ending in Hend.
  replace (1 + k - 1) with k in Hend by lia.
  exact Hend.
Qed.

Lemma series_loop_never_stops letter (nums : list nat) :
  (forall k e, returns k e = true) ->
  (forall k url resp,
     http_get k url = Downloader.Responds resp ->
     Downloader.valid resp = false)
  \/ (forall k url resp,
        http_get k url = Downloader.Responds resp ->
        Downloader.valid resp = true) ->
  forall (misses : nat) (found_any : bool) st,
    (found_any = false
     \/ forall k url resp,
          http_get k url = Downloader.Responds resp ->
          Downloader.valid resp = true) ->
    fst (sloop letter nums misses found_any st) = true
    /\ Downloader.sent (snd (sloop letter nums misses found_any st))
       = Downloader.sent st + List.length nums
    /\ Downloader.stops
         (Downloader.trace (snd (sloop letter nums misses found_any st)))
       = Downloader.stops (Downloader.trace st).
Proof.
  intros Hret Hnet.
  induction nums as [|num rest IH]; intros misses found_any st Hf.
  - cbn. auto.
  - cbn [Downloader.series_loop List.length]. cbv zeta.
    unfold Downloader.perform. rewrite !Hret.
    set (url := Downloader.page_url letter num).
    assert (Hgo : forall m f extra st1,
               Downloader.one_more url extra st1 st ->
               (f = false
                \/ forall k url resp,
                     http_get k url = Downloader.Responds resp ->
                     Downloader.valid resp = true) ->
               fst (sloop letter rest m f st1) = true
               /\ Downloader.sent (snd (sloop letter rest m f st1))
                  = Downloader.sent st + S (List.length rest)
               /\ Downloader.stops
                    (Downloader.trace (snd (sloop letter rest m f st1)))
                  = Downloader.stops (Downloader.trace st)).
    { intros m f extra st1 (Hs & _ & _ & Hst) Hf1.
      destruct (IH m f st1 Hf1) as (H0 & H1 & H2). rewrite H0, H1, H2, Hs, Hst.
      split; [reflexivity|]. split; [lia|reflexivity]. }
    destruct (http_get (Downloader.sent st) url) as [err|resp] eqn:E.
    + rewrite Hret.
      apply (Hgo _ _ []); [apply one_more_error|exact Hf].
    + destruct (Downloader.valid resp) eqn:Ev.
      * destruct Hnet as [Hnet|Hnet].
        { rewrite (Hnet _ _ _ E) in Ev. discriminate. }
        rewrite Hret.
        apply (Hgo _ _ [(letter, num)]); [apply one_more_page|].
        right. exact Hnet.
      * destruct Hf as [-> |Hall].
        -- apply (Hgo _ _ []); [apply one_more_request|now left].
        -- rewrite (Hall _ _ _ E) in Ev. discriminate.
Qed.

(** X16.  Where no action raises, [download_series] never gives up on
    a series of which no page is ever found, since misses are counted
    only once a page has been found; nor on a series where every
    answer is a page or a failed request, since a failed request is
    not a miss.  In both cases every number from 1 to [max_num] is
    requested and the function returns. *)
Theorem series_without_counted_misses_runs_to_the_end letter
    (max_num : Z) st :
  (forall k e, returns k e = true) ->
  (forall k url resp,
     http_get k url = Downloader.Responds resp ->
     Downloader.valid resp = false)
  \/ (forall k url resp,
        http_get k url = Downloader.Responds resp ->
        Downloader.valid resp = true) ->
  fst (series letter max_num st) = true
  /\ Downloader.sent (snd (series letter max_num st))
     = Downloader.sent st + Z.to_nat max_num
  /\ Downloader.stops (Downloader.trace (snd (series letter max_num st)))
     = Downloader.stops (Downloader.trace st).
Proof.
  intros Hret Hnet. unfold Downloader.download_series.
  destruct (series_loop_never_stops letter (seq 1 (Z.to_nat max_num)) Hret Hnet
              0 false st (or_introl eq_refl)) as (H0 & H1 & H2).
  rewrite length_seq in H1. auto.
Qed.

Lemma valid_prefix letter (rest : list nat) (j : nat) :
  (forall k e, returns k e = true) ->
  forall (a misses : nat) (found_any : bool) st,
    (forall q url,
       q < S j ->
       exists resp,
         http_get (Downloader.sent st + q) url = Downloader.Responds resp
         /\ Downloader.valid resp = true) ->
    exists st1,
      sloop letter (seq a (S j) ++ rest) misses found_any st
      = sloop letter rest 0 true st1
      /\ Downloader.sent st1 = Downloader.sent st + S j
      /\ Downloader.processed (Downloader.trace st1)
         = Downloader.processed (Downloader.trace st)
           ++ List.map (pair letter) (seq a (S j))
      /\ Downloader.stops (Downloader.trace st1)
         = Downloader.stops (Downloader.trace st).
Proof.
  intros Hret.
  induction j as [|j IH]; intros a misses found_any st Hv.
  - cbn [seq app Downloader.series_loop]. cbv zeta.
    destruct (Hv 0 (Downloader.page_url letter a)) as (resp & Hr & Hva); [lia|].
    rewrite Nat.add_0_r in Hr. rewrite Hr, Hva.
    unfold Downloader.perform. rewrite Hret.
    eexists. split; [reflexivity|].
    destruct (one_more_page (Downloader.page_url letter a) letter a resp st)
      as (Hs & _ & Hp & Hst).
    rewrite Hs, Hp, Hst. cbn. split; [lia|auto].
  - change (seq a (S (S j)) ++ rest) with (a :: (seq (S a) (S j) ++ rest)).
    cbn [Downloader.series_loop]. cbv zeta.
    destruct (Hv 0 (Downloader.page_url letter a)) as (resp & Hr & Hva); [lia|].
    rewrite Nat.add_0_r in Hr. rewrite Hr, Hva.
    unfold Downloader.perform. rewrite Hret.
    destruct (one_more_page (Downloader.page_url letter a) letter a resp st)
      as (Hs & _ & Hp & Hst).
    set (st0 := Downloader.emit _ _) in *.
    destruct (IH (S a) 0 true st0) as (st1 & Heq & Hs1 & Hp1 & Hst1).
    { intros q url Hq. rewrite Hs.
      replace (S (Downloader.sent st) + q) with (Downloader.sent st + S q)
        by lia.
      apply Hv. lia. }
    exists st1. split; [exact Heq|].
    rewrite Hs1, Hp1, Hst1, Hs, Hp, Hst, <- app_assoc.
    split; [lia|]. split; reflexivity.
Qed.

Lemma invalid_countdown letter (d : nat) :
  (forall k e, returns k e = true) ->
  forall (nums : list nat) (misses : nat) st,
    misses + S d = Downloader.CONSECUTIVE_MISSES_LIMIT ->
    S d <= List.length nums ->
    (forall q url,
       exists resp,
         http_get (Downloader.sent st + q) url = Downloader.Responds resp
         /\ Downloader.valid resp = false) ->
    fst (sloop letter nums misses true st) = true
    /\ Downloader.sent (snd (sloop letter nums misses true st))
       = Downloader.sent st + S d
    /\ Downloader.processed
         (Downloader.trace (snd (sloop letter nums misses true st)))
       = Downloader.processed (Downloader.trace st)
    /\ Downloader.stops
         (Downloader.trace (snd (sloop letter nums misses true st)))
       = Downloader.stops (Downloader.trace st) ++ [(letter, nth d nums 0)].
Proof.
  intros Hret.
  induction d as [|d IH]; intros nums misses st Hm Hlen Hinv;
    (destruct nums as [|num rest]; [cbn in Hlen; lia|]);
    cbn [Downloader.series_loop]; cbv zeta;
    destruct (Hinv 0 (Downloader.page_url letter num)) as (resp & Hr & Hva);
    rewrite Nat.add_0_r in Hr; rewrite Hr, Hva.
  - replace (Downloader.CONSECUTIVE_MISSES_LIMIT <=? misses + 1) with true
      by (symmetry; apply Nat.leb_le; lia).
    unfold Downloader.perform. rewrite Hret.
    unfold Downloader.emit, Downloader.count_request.
    cbn [fst snd Downloader.sent Downloader.trace nth].
    rewrite !processed_app, !stops_app. cbn. rewrite !app_nil_r.
    split; [reflexivity|]. split; [lia|]. split; reflexivity.
  - replace (Downloader.CONSECUTIVE_MISSES_LIMIT <=? misses + 1) with false
      by (symmetry; apply Nat.leb_gt; lia).
    destruct (one_more_request (Downloader.page_url letter num) st)
      as (Hs & _ & Hp & Hst).
    set (st0 := Downloader.count_request _ _) in *.
    destruct (IH rest (misses + 1) st0) as (H0 & H1 & H2 & H3).
    + lia.
    + cbn in Hlen. lia.
    + intros q url. rewrite Hs.
      replace (S (Downloader.sent st) + q) with (Downloader.sent st + S q)
        by lia.
      apply Hinv.
    + rewrite H0, H1, H2, H3, Hs, Hp, Hst, app_nil_r. cbn [nth].
      split; [reflexivity|]. split; [lia|]. split; reflexivity.
Qed.

(** X17.  Where no action raises, on a series whose pages 1 to [j]
    exist and whose later pages are answered by error pages,
    [download_series] hands the [j] pages to [process_html] in order,
    then gives up at the 25th miss in a row: it sends exactly [j + 25]
    requests, gives up at page [j + 25], requests no later page,
    however large [max_num] is, and returns. *)
Theorem series_gives_up_after_25_misses letter (max_num : Z) (j : nat) st :
  (forall k e, returns k e = true) ->
  1 <= j ->
  j + 25 <= Z.to_nat max_num ->
  (forall q url,
     q < j ->
     exists resp,
       http_get (Downloader.sent st + q) url = Downloader.Responds resp
       /\ Downloader.valid resp = true) ->
  (forall q url,
     j <= q ->
     exists resp,
       http_get (Downloader.sent st + q) url = Downloader.Responds resp
       /\ Downloader.valid resp = false) ->
  fst (series letter max_num st) = true
  /\ Downloader.sent (snd (series letter max_num st))
     = Downloader.sent st + (j + 25)
  /\ Downloader.processed (Downloader.trace (snd (series letter max_num st)))
     = Downloader.processed (Downloader.trace st)
       ++ List.map (pair letter) (seq 1 j)
  /\ Downloader.stops (Downloader.trace (snd (series letter max_num st)))
     = Downloader.stops (Downloader.trace st) ++ [(letter, j + 25)].
Proof.
  intros Hret Hj Hmax Hvalid Hinvalid. unfold Downloader.download_series.
  destruct j as [|j]; [lia|].
  replace (Z.to_nat max_num) with (S j + (Z.to_nat max_num - S j)) by lia.
  rewrite seq_app.
  destruct (valid_prefix letter (seq (1 + S j) (Z.to_nat max_num - S j)) j
              Hret 1 0 false st Hvalid) as (st1 & -> & Hs1 & Hp1 & Hst1).
  destruct (invalid_countdown letter 24 Hret
              (seq (1 + S j) (Z.to_nat max_num - S j)) 0 st1)
    as (H0 & H1 & H2 & H3).
  - reflexivity.
  - rewrite length_seq. lia.
  - intros q url. rewrite Hs1.
    replace (Downloader.sent st + S j + q)
      with (Downloader.sent st + (S j + q)) by lia.
    apply Hinvalid. lia.
  - rewrite H0, H1, H2, H3, Hs1, Hp1, Hst1.
    rewrite seq_nth by lia.
    split; [reflexivity|]. split; [lia|]. split; [reflexivity|].
    now replace (1 + S j + 24) with (S j + 25) by lia.
Qed.

(** ** The three series *)

(** An action that is neither a request nor anything else counted
    leaves the requests as they are, whether it returns or raises. *)
Lemma perform_requests (e : Downloader.event) st :
  (forall url, e <> Downloader.EvGet url) ->
  Downloader.sent (snd (Downloader.perform returns e st)) = Downloader.sent st
  /\ Downloader.gets (Downloader.trace (snd (Downloader.perform returns e st)))
     = Downloader.gets (Downloader.trace st).
Proof.
  intros He. unfold Downloader.perform, Downloader.emit.
  destruct (returns _ _); cbn; rewrite !gets_app; cbn;
    rewrite ?app_nil_r; (split; [reflexivity|]);
    (destruct e; cbn; rewrite ?app_nil_r; try reflexivity;
     now destruct (He url)).
Qed.

(** The requests of one series of [main], header included. *)
Lemma series_requests letter (max_num : Z) st0 st :
  Downloader.sent st0 = Downloader.sent st ->
  Downloader.gets (Downloader.trace st0) = Downloader.gets (Downloader.trace st) ->
  exists k,
    k <= Z.to_nat max_num
    /\ Downloader.sent (snd (series letter max_num st0)) = Downloader.sent st + k
    /\ Downloader.gets (Downloader.trace (snd (series letter max_num st0)))
       = Downloader.gets (Downloader.trace st)
         ++ List.map (Downloader.page_url letter) (seq 1 k).
Proof.
  intros Hs0 Hg0. unfold Downloader.download_series.
  destruct (series_loop_spec letter (Z.to_nat max_num) 1 0 false st0)
    as (k & Hk & Hs & Hg & _).
  exists k. rewrite Hs, Hg, Hs0, Hg0. auto.
Qed.

(** X18.  [main] goes through the series A, B and C in this order and
    starts each one afresh: it requests the pages 1 to [ka] of A, then
    1 to [kb] of B, then 1 to [kc] of C, each count being at most
    [max_num], and nothing else; so it never sends more than three
    times [max_num] page requests. *)
Theorem main_requests_three_series (max_num : Z) st :
  exists ka kb kc,
    ka <= Z.to_nat max_num
    /\ kb <= Z.to_nat max_num
    /\ kc <= Z.to_nat max_num
    /\ Downloader.sent (Downloader.main http_get returns max_num st)
       = Downloader.sent st + ka + kb + kc
    /\ Downloader.gets
         (Downloader.trace (Downloader.main http_get returns max_num st))
       = Downloader.gets (Downloader.trace st)
         ++ List.map (Downloader.page_url (py "A")) (seq 1 ka)
         ++ List.map (Downloader.page_url (py "B")) (seq 1 kb)
         ++ List.map (Downloader.page_url (py "C")) (seq 1 kc).
Proof.
  assert (Hnone : forall ka kb st',
             ka <= Z.to_nat max_num -> kb <= Z.to_nat max_num ->
             Downloader.sent st' = Downloader.sent st + ka + kb ->
             Downloader.gets (Downloader.trace st')
             = Downloader.gets (Downloader.trace st)
               ++ List.map (Downloader.page_url (py "A")) (seq 1 ka)
               ++ List.map (Downloader.page_url (py "B")) (seq 1 kb) ->
             exists ka kb kc,
               ka <= Z.to_nat max_num
               /\ kb <= Z.to_nat max_num
               /\ kc <= Z.to_nat max_num
               /\ Downloader.sent st' = Downloader.sent st + ka + kb + kc
               /\ Downloader.gets (Downloader.trace st')
                  = Downloader.gets (Downloader.trace st)
                    ++ List.map (Downloader.page_url (py "A")) (seq 1 ka)
                    ++ List.map (Downloader.page_url (py "B")) (seq 1 kb)
                    ++ List.map (Downloader.page_url (py "C")) (seq 1 kc)).
  { intros ka kb st' Hka Hkb Hs Hg. exists ka, kb, 0.
    cbn [seq List.map]. rewrite app_nil_r.
    split; [exact Hka|]. split; [exact Hkb|]. split; [lia|].
    split; [lia|exact Hg]. }
  unfold Downloader.main, Downloader.DIFFICULTIES.
  cbn [Downloader.all_series].
  (* the output directory *)
  destruct (perform_requests Downloader.EvOutDir st) as (Hs0 & Hg0);
    [discriminate|].
  destruct (Downloader.perform returns Downloader.EvOutDir st) as [[|] s0];
    cbn [snd] in Hs0, Hg0.
  2:{ apply (Hnone 0 0); [lia|lia|lia|].
      cbn [seq List.map]. now rewrite !app_nil_r. }
  (* series A *)
  destruct (perform_requests (Downloader.EvHeader (py "A")) s0) as (Hs1 & Hg1);
    [discriminate|].
  destruct (Downloader.perform returns (Downloader.EvHeader (py "A")) s0)
    as [[|] s1]; cbn [snd] in Hs1, Hg1.
  2:{ apply (Hnone 0 0); [lia|lia|lia|].
      cbn [seq List.map]. rewrite !app_nil_r. congruence. }
  destruct (series_requests (py "A") max_num s1 st) as (ka & Hka & Hsa & Hga);
    [congruence|congruence|].
  destruct (series (py "A") max_num s1) as [[|] sa]; cbn [snd] in Hsa, Hga.
  2:{ apply (Hnone ka 0); [lia|lia|lia|].
      cbn [seq List.map]. now rewrite !app_nil_r. }
  (* series B *)
  destruct (perform_requests (Downloader.EvHeader (py "B")) sa) as (Hs2 & Hg2);
    [discriminate|].
  destruct (Downloader.perform returns (Downloader.EvHeader (py "B")) sa)
    as [[|] s2]; cbn [snd] in Hs2, Hg2.
  2:{ apply (Hnone ka 0); [lia|lia|lia|].
      cbn [seq List.map]. rewrite !app_nil_r. congruence. }
  destruct (series_requests (py "B") max_num s2 sa) as (kb & Hkb & Hsb & Hgb);
    [congruence|congruence|].
  rewrite Hsa in Hsb. rewrite Hga, <- app_assoc in Hgb.
  destruct (series (py "B") max_num s2) as [[|] sb]; cbn [snd] in Hsb, Hgb.
  2:{ apply (Hnone ka kb); assumption. }
  (* series C *)
  destruct (perform_requests (Downloader.EvHeader (py "C")) sb) as (Hs3 & Hg3);
    [discriminate|].
  destruct (Downloader.perform returns (Downloader.EvHeader (py "C")) sb)
    as [[|] s3]; cbn [snd] in Hs3, Hg3.
  2:{ apply (Hnone ka kb); congruence. }
  destruct (series_requests (py "C") max_num s3 sb) as (kc & Hkc & Hsc & Hgc);
    [congruence|congruence|].
  rewrite Hsb in Hsc. rewrite Hgb, <- !app_assoc in Hgc.
  destruct (series (py "C") max_num s3) as [[|] sc]; cbn [snd] in Hsc, Hgc.
  - destruct (perform_requests Downloader.EvDone sc) as (Hs4 & Hg4);
      [discriminate|].
    exists ka, kb, kc. rewrite Hs4, Hg4.
    split; [exact Hka|]. split; [exact Hkb|]. split; [exact Hkc|].
    split; [lia|exact Hgc].
  - exists ka, kb, kc.
    split; [exact Hka|]. split; [exact Hkb|]. split; [exact Hkc|].
    split; [lia|exact Hgc].
Qed.

End SeriesFacts.

(** * The properties on the concrete environments *)

Lemma C8_witness :
  run_single_test Demo.timeout_str Shapes.probe_child Shapes.probe_self
                  (JObj []) boot
  = (Ok (false, Some (py "no input"), Some (py "Output mismatch")),
     after_spawn boot)
  /\ (exists rest,
        console (snd (loop_body Demo.timeout_str Shapes.probe_child
                                Shapes.probe_self 5 4 (JObj []) boot))
        = console boot ++ PrCase 4 5 (JStr (py "Test 4")) :: rest)
  /\ (exists f,
        failures (results (snd (loop_body Demo.timeout_str Shapes.probe_child
                                          Shapes.probe_self 5 4 (JObj []) boot)))
        = failures (results boot) ++ [f]
        /\ f_input f = JStr []
        /\ f_expected f = JStr []
        /\ f_test f = JStr (py "Test 4")).
Proof.
  destruct (C8_missing_fields_take_defaults nat Demo.timeout_str
              Shapes.probe_child Shapes.probe_self 5 4 [] boot)
    as (Hin & Hex & Hrec).
  split; [|split].
  - rewrite (Hin eq_refl [] eq_refl). vm_compute. reflexivity.
  - apply (proj1 (Hrec _ ltac:(vm_compute; reflexivity))). reflexivity.
  - destruct (proj2 (Hrec _ ltac:(vm_compute; reflexivity)))
      as (f & Hf & Hi & He & Hn).
    + vm_compute. discriminate.
    + exists f. split; [exact Hf|].
      split; [exact (Hi eq_refl)|]. split; [exact (He eq_refl)|exact (Hn eq_refl)].
Defined.

Lemma tally_consistent_at_every_exit_witness :
  tally_ok (results (snd (run_all_tests Demo.timeout_str Demo.json_load
                                        Demo.child Demo.odd_self boot)))
  /\ (exists l,
        failures (results (snd (run_all_tests Demo.timeout_str Demo.json_load
                                              Demo.child Demo.odd_self boot)))
        = failures (results boot) ++ l)
  /\ total (results (snd (run_all_tests Demo.timeout_str Demo.json_load
                                        Demo.child Demo.odd_self boot)))
     + spawned boot
     = total (results boot)
       + spawned (snd (run_all_tests Demo.timeout_str Demo.json_load
                                     Demo.child Demo.odd_self boot)).
Proof.
  apply (tally_consistent_at_every_exit nat Demo.timeout_str Demo.json_load
           Demo.child Demo.odd_self boot (Raise AttributeError)).
  - vm_compute. reflexivity.
  - split; reflexivity.
Defined.

Lemma every_record_has_an_error_line_witness :
  exists l,
    failures (results (snd (run_all_tests Demo.timeout_str Demo.json_load
                                          Demo.child Demo.self boot)))
    = failures (results boot) ++ l
    /\ Forall (fun f =>
                 exists e,
                   f_error f = Some e
                   /\ e <> []
                   /\ In (PrItemError e) (item_lines f)
                   /\ In (PrDetailsError e) (detail_lines f)) l.
Proof.
  apply (every_record_has_an_error_line nat Demo.timeout_str Demo.json_load
           Demo.child Demo.self boot (Ok tt)).
  vm_compute. reflexivity.
Defined.



Lemma malformed_document_is_fatal_witness :
  main Demo.timeout_str Shapes.path_exists Shapes.json_load Demo.child
       Shapes.nokey_args boot
  = (1%Z, printed (reset boot) [PrFatal KeyError]).
Proof.
  apply (malformed_document_is_fatal nat Demo.timeout_str Shapes.path_exists
           Shapes.json_load Demo.child Shapes.nokey_args
           (JObj [(py "tests", JArr [])]) KeyError boot);
    reflexivity.
Defined.

Lemma test_cases_that_is_not_a_list_witness :
  main Demo.timeout_str Shapes.path_exists Shapes.json_load Demo.child
       Shapes.text_args boot
  = (1%Z, printed (reset boot) [PrRunning 2; PrFatal AttributeError]).
Proof.
  apply (test_cases_that_is_not_a_list nat Demo.timeout_str Shapes.path_exists
           Shapes.json_load Demo.child Shapes.text_args
           (JObj [(py "test_cases", JStr (py "ab"))]) (JStr (py "ab")) 2 boot);
    try reflexivity.
  intros l H. discriminate H.
Defined.

Lemma children_left_behind_witness :
  running (snd (run_all_tests Demo.timeout_str Shapes.json_load Demo.child
                              Shapes.crash_self boot))
  = [3; 1] ++ running boot.
Proof.
  apply (proj1 (children_left_behind nat Demo.timeout_str Shapes.json_load
                  Demo.child Shapes.crash_self
                  (JObj [(py "test_cases", JArr Shapes.crash_cases)])
                  (JArr Shapes.crash_cases) Shapes.crash_cases boot
                  (snd (run_all_tests Demo.timeout_str Shapes.json_load
                                      Demo.child Shapes.crash_self boot))
                  eq_refl eq_refl eq_refl
                  (Forall_nil _)
                  ltac:(vm_compute; reflexivity))).
Defined.

Lemma console_of_a_completed_run_witness :
  console (snd (run_all_tests Demo.timeout_str Demo.json_load Demo.child
                              Demo.self boot))
  = console boot
    ++ PrRunning 5
       :: lines_from Demo.timeout_str Demo.child Demo.self 5 1 0 Demo.cases.
Proof.
  apply (console_of_a_completed_run nat Demo.timeout_str Demo.json_load
           Demo.child Demo.self Demo.suite (JArr Demo.cases) 5 Demo.cases boot);
    [reflexivity|reflexivity|reflexivity|reflexivity|].
  vm_compute. reflexivity.
Defined.

Lemma quiet_run_prints_two_lines_per_case_witness :
  exists added,
    console (snd (run_all_tests Demo.timeout_str Demo.json_load Demo.child
                                Shapes.quiet_self boot))
    = console boot ++ PrRunning 5 :: added
    /\ List.length added = 2 * 5
    /\ existsb is_detail_line added = false.
Proof.
  apply (quiet_run_prints_two_lines_per_case nat Demo.timeout_str
           Demo.json_load Demo.child Shapes.quiet_self Demo.suite
           (JArr Demo.cases) 5 Demo.cases boot);
    [reflexivity|reflexivity|reflexivity|reflexivity| | ].
  - left. reflexivity.
  - vm_compute. reflexivity.
Defined.

Lemma second_run_adds_to_the_tally_witness :
  total (results (snd (run_all_tests Demo.timeout_str Demo.json_load
                                     Demo.child Demo.self boot))) = 5
  /\ total (results
             (snd (run_all_tests Demo.timeout_str Demo.json_load Demo.child
                     Demo.self
                     (snd (run_all_tests Demo.timeout_str Demo.json_load
                                         Demo.child Demo.self boot)))))
     = 2 * 5.
Proof.
  pose proof (second_run_adds_to_the_tally nat Demo.timeout_str Demo.json_load
                Demo.child Demo.self Demo.suite (JArr Demo.cases) 5 boot
                (snd (run_all_tests Demo.timeout_str Demo.json_load Demo.child
                                    Demo.self boot))
                (snd (run_all_tests Demo.timeout_str Demo.json_load Demo.child
                        Demo.self
                        (snd (run_all_tests Demo.timeout_str Demo.json_load
                                            Demo.child Demo.self boot))))
                eq_refl eq_refl eq_refl eq_refl
                ltac:(vm_compute; reflexivity)
                ltac:(vm_compute; reflexivity)) as (H1 & H2 & _).
  split; [exact H1|exact H2].
Defined.

Lemma startup_diagnostics_witness :
  main Demo.timeout_str Shapes.path_exists Shapes.json_load Demo.child
       Shapes.dotted_args boot
  = (1%Z,
     printed (reset boot)
       [PrFatal (FileNotFoundError
                   (py "Tests file not found: " ++ py "missing.json"))]).
Proof.
  apply (startup_diagnostics nat Demo.timeout_str Shapes.path_exists
           Shapes.json_load Demo.child Shapes.dotted_args boot).
  - right. reflexivity.
  - reflexivity.
  - reflexivity.
Defined.

Lemma reported_output_is_stripped_witness :
  trimmed (py "42") = true /\ strip (py "42") = py "42".
Proof.
  apply (reported_output_is_stripped nat Demo.timeout_str Demo.child Demo.self
           Demo.spaced_case boot (after_spawn boot) true (py "42") None).
  vm_compute. reflexivity.
Defined.

Lemma resolve_url_ignores_leading_slashes_witness :
  Downloader.resolve_url (repeat 47%N 2 ++ py "img/a.png")
  = Downloader.resolve_url (py "img/a.png")
  /\ Downloader.resolve_url (py "img/a.png")
     = Downloader.BASE_URL ++ Downloader.lstrip_chars (py "/") (py "img/a.png")
  /\ Downloader.startswith
       (Downloader.lstrip_chars (py "/") (py "img/a.png")) (py "/") = false.
Proof.
  apply (resolve_url_ignores_leading_slashes 2 (py "img/a.png")).
  reflexivity.
Defined.

Lemma series_without_counted_misses_runs_to_the_end_witness :
  (fst (Downloader.download_series Downloader.no_pages
          Downloader.always_returns (py "A") 30 Downloader.start) = true
   /\ Downloader.sent
        (snd (Downloader.download_series Downloader.no_pages
                Downloader.always_returns (py "A") 30 Downloader.start))
      = Downloader.sent Downloader.start + Z.to_nat 30
   /\ Downloader.stops
        (Downloader.trace
           (snd (Downloader.download_series Downloader.no_pages
                   Downloader.always_returns (py "A") 30 Downloader.start)))
      = Downloader.stops (Downloader.trace Downloader.start))
  /\ (fst (Downloader.download_series Downloader.flaky_pages
             Downloader.always_returns (py "A") 60 Downloader.start) = true
      /\ Downloader.sent
           (snd (Downloader.download_series Downloader.flaky_pages
                   Downloader.always_returns (py "A") 60 Downloader.start))
         = Downloader.sent Downloader.start + Z.to_nat 60
      /\ Downloader.stops
           (Downloader.trace
              (snd (Downloader.download_series Downloader.flaky_pages
                      Downloader.always_returns (py "A") 60
                      Downloader.start)))
         = Downloader.stops (Downloader.trace Downloader.start)).
Proof.
  split.
  - apply (series_without_counted_misses_runs_to_the_end Downloader.no_pages
             Downloader.always_returns (py "A") 30%Z Downloader.start).
    + reflexivity.
    + left. intros k url resp H. inversion H. reflexivity.
  - apply (series_without_counted_misses_runs_to_the_end Downloader.flaky_pages
             Downloader.always_returns (py "A") 60%Z Downloader.start).
    + reflexivity.
    + right. intros k url resp. unfold Downloader.flaky_pages.
      destruct (Nat.even k); [|discriminate].
      intros H. inversion H. reflexivity.
Defined.

Lemma series_gives_up_after_25_misses_witness :
  fst (Downloader.download_series (Downloader.pages_then_nothing 3)
         Downloader.always_returns (py "B") 40 Downloader.start) = true
  /\ Downloader.sent
       (snd (Downloader.download_series (Downloader.pages_then_nothing 3)
               Downloader.always_returns (py "B") 40 Downloader.start))
     = Downloader.sent Downloader.start + (3 + 25)
  /\ Downloader.processed
       (Downloader.trace
          (snd (Downloader.download_series (Downloader.pages_then_nothing 3)
                  Downloader.always_returns (py "B") 40 Downloader.start)))
     = Downloader.processed (Downloader.trace Downloader.start)
       ++ List.map (pair (py "B")) (seq 1 3)
  /\ Downloader.stops
       (Downloader.trace
          (snd (Downloader.download_series (Downloader.pages_then_nothing 3)
                  Downloader.always_returns (py "B") 40 Downloader.start)))
     = Downloader.stops (Downloader.trace Downloader.start)
       ++ [(py "B", 3 + 25)].
Proof.
  apply (series_gives_up_after_25_misses (Downloader.pages_then_nothing 3)
           Downloader.always_returns (py "B") 40%Z 3 Downloader.start).
  - reflexivity.
  - lia.
  - vm_compute. lia.
  - intros q url Hq. eexists. unfold Downloader.pages_then_nothing.
    cbn [Downloader.start Downloader.sent Nat.add].
    destruct (Nat.ltb_spec q 3) as [_|Hge]; [|lia].
    split; reflexivity.
  - intros q url Hq. eexists. unfold Downloader.pages_then_nothing.
    cbn [Downloader.start Downloader.sent Nat.add].
    destruct (Nat.ltb_spec q 3) as [Hlt|_]; [lia|].
    split; reflexivity.
Defined.

(** A page that cannot be saved ends the series, and the program, at
    that page: the later pages and the later series are not requested. *)
Example unsaved_page_ends_the_program :
  Downloader.download_series Downloader.three_pages
    Downloader.second_not_saved (py "A") 999 Downloader.start
  = (false,
     Downloader.mkD 2
       [Downloader.EvGet (Downloader.page_url (py "A") 1);
        Downloader.EvProcess (py "A") 1
          (Downloader.mkResponse 200 (py "<html><img src=/a.png></html>"));
        Downloader.EvGet (Downloader.page_url (py "A") 2);
        Downloader.EvProcess (py "A") 2
          (Downloader.mkResponse 200 (py "<html><img src=/a.png></html>"));
        Downloader.EvRaised])
  /\ Downloader.sent
       (Downloader.main Downloader.three_pages Downloader.second_not_saved
                        999 Downloader.start) = 2.
Proof. split; vm_compute; reflexivity. Qed.

(** On a console that cannot encode the line about giving up, the
    25th miss in a row ends the program with an exception. *)
Example unprintable_stop_ends_the_program :
  fst (Downloader.download_series (Downloader.pages_then_nothing 3)
         Downloader.ascii_console (py "B") 40 Downloader.start) = false
  /\ Downloader.sent
       (Downloader.main (Downloader.pages_then_nothing 3)
                        Downloader.ascii_console 40 Downloader.start) = 28.
Proof. split; vm_compute; reflexivity. Qed.
